(** * LinearRegressionAnalysis: the statistics computations of the visualizer

    A shallow embedding of the numeric code of the application:

    - [RegressionCalculations.calculateStats]  (components/RegressionCalculations.tsx)
    - the table body and table footer of [App]  (App.tsx)
    - [GemmaChatbot.generateDataContext]        (components/GemmaChatbot.tsx)
    - [DataInput.handleSubmit], [DataInput.handleYKeyDown] and the dataset
      handlers of [App]                          (components/DataInput.tsx, App.tsx)

    The chart (components/RegressionChart.tsx) draws what the external
    regression library returns and is not embedded.

    The code is arithmetic on JavaScript numbers.  Every function is written
    once, over an interface [JsNumber] of the operations the source uses, and
    read at the instance [Float64]: IEEE 754 binary64 (Rocq's primitive
    floats), the arithmetic the program runs on, with its NaN, its
    infinities and its rounding.  Statements proved over an arbitrary
    [JsNumber] use no law of arithmetic and hold at [Float64] bit for bit. *)

From Stdlib Require Import String Ascii List Bool Arith ZArith Lia.
From Stdlib Require Import DecimalString.
From Stdlib Require Import Uint63 PrimFloat SpecFloat FloatOps.
From Stdlib Require Import Permutation.
Import ListNotations.

Set Implicit Arguments.

(** ** JavaScript numbers *)

(** The operations of a JavaScript number that the source uses. *)
Class JsNumber (num : Type) : Type := {
  js_zero : num;                      (* the literal 0 *)
  js_add : num -> num -> num;         (* a + b *)
  js_sub : num -> num -> num;         (* a - b *)
  js_mul : num -> num -> num;         (* a * b *)
  js_div : num -> num -> num;         (* a / b *)
  Math_sqrt : num -> num;             (* Math.sqrt(a) *)
  js_strict_neq : num -> num -> bool; (* a !== b *)
  isNaN : num -> bool;                (* isNaN(a) *)
  of_length : nat -> num              (* an array length, as a number *)
}.

Declare Scope js_scope.
Delimit Scope js_scope with js.
Notation "a + b" := (js_add a b) : js_scope.
Notation "a - b" := (js_sub a b) : js_scope.
Notation "a * b" := (js_mul a b) : js_scope.
Notation "a / b" := (js_div a b) : js_scope.
Notation "a !== b" := (js_strict_neq a b) (at level 70, no associativity) : js_scope.
Notation "# n" := (of_length n) (at level 9, n at level 9, format "# n") : js_scope.

(** [interface DataPoint { x: number; y: number }] *)
Record DataPoint (num : Type) : Type := { x : num; y : num }.
Arguments Build_DataPoint {num} _ _.
Arguments x {num} _.
Arguments y {num} _.

(** No coordinate of the point is NaN. *)
Definition wellFormed {num : Type} `{JsNumber num} (p : DataPoint num) : Prop :=
  isNaN p.(x) = false /\ isNaN p.(y) = false.

(** [array.reduce(callback, initialValue)]: one pass, from the first element
    to the last. *)
Definition reduce {A B : Type} (callback : B -> A -> B) (initialValue : B)
  (array : list A) : B :=
  fold_left callback array initialValue.

(** ** The external regression library

    [import regression from 'regression'] is a third-party package; its code
    is not part of the repository.  The program only reads [r2] and [predict]
    from the result of [regression.linear]. *)
Module Regression.
Record Result (num : Type) : Type := {
  r2 : num;
  predict : num -> num * num
}.
Arguments r2 {num} _.
Arguments predict {num} _ _.
Definition Linear (num : Type) : Type := list (num * num) -> Result num.
End Regression.

(** ** components/RegressionCalculations.tsx *)
Module RegressionCalculations.
Section WithNumbers.
Context {num : Type} `{JsNumber num}.
Variable regression_linear : Regression.Linear num.
Local Open Scope js_scope.

(** The object [calculateStats] returns. *)
Record Stats : Type := {
  sxx : num;
  scp : num;
  slope : num;
  intercept : num;
  n : nat;
  sumX : num;
  sumY : num;
  sumXY : num;
  meanX : num;
  meanY : num;
  r2 : num
}.

(** [calculateStats], lines 29-63; [None] is the [null] it returns. *)
Definition calculateStats (data : list (DataPoint num)) : option Stats :=
  if length data <? 2 then None else
  let n := length data in
  let sumX := reduce (fun acc point => acc + point.(x)) js_zero data in
  let sumY := reduce (fun acc point => acc + point.(y)) js_zero data in
  let sumXY := reduce (fun acc point => acc + point.(x) * point.(y)) js_zero data in
  let sumXX := reduce (fun acc point => acc + point.(x) * point.(x)) js_zero data in
  let meanX := sumX / #n in
  let meanY := sumY / #n in
  let sxx := sumXX - (sumX * sumX) / #n in
  let scp := sumXY - (sumX * sumY) / #n in
  let slope := scp / sxx in
  let intercept := meanY - slope * meanX in
  let points := map (fun point => (point.(x), point.(y))) data in
  let result := regression_linear points in
  let r2 := Regression.r2 result in
  Some {| sxx := sxx; scp := scp; slope := slope; intercept := intercept;
          n := n; sumX := sumX; sumY := sumY; sumXY := sumXY;
          meanX := meanX; meanY := meanY; r2 := r2 |}.
End WithNumbers.
Arguments Stats num : clear implicits.
End RegressionCalculations.

(** ** App.tsx: the dataset handlers and the data table *)
Module App.
Section WithNumbers.
Context {num : Type} `{JsNumber num}.
Local Open Scope js_scope.

(** [handleDataAdd]: [setDataPoints([...dataPoints, point])]. *)
Definition handleDataAdd (dataPoints : list (DataPoint num)) (point : DataPoint num)
  : list (DataPoint num) :=
  dataPoints ++ [point].

(** [handleClear]: [setDataPoints([])]. *)
Definition handleClear : list (DataPoint num) := [].

(** [dataPoints.filter((_, i) => i !== index)], with the running index [i]. *)
Fixpoint filter_index (i index : nat) (dataPoints : list (DataPoint num))
  : list (DataPoint num) :=
  match dataPoints with
  | [] => []
  | p :: rest =>
      if Nat.eqb i index then filter_index (S i) index rest
      else p :: filter_index (S i) index rest
  end.

(** [handleDeletePoint]. *)
Definition handleDeletePoint (dataPoints : list (DataPoint num)) (index : nat)
  : list (DataPoint num) :=
  filter_index 0 index dataPoints.

(** The table (and the chart) is rendered under [dataPoints.length > 0 && ...]. *)
Definition showsTable (dataPoints : list (DataPoint num)) : bool :=
  0 <? length dataPoints.

(** The ten cells of a table row, as numbers (each is shown with [toFixed(4)]). *)
Record Row : Type := {
  cell_x : num;
  cell_y : num;
  yPredicted : num;
  xDiff : num;
  yDiff : num;
  residual : num;
  xDiff_sq : num;
  xDiff_yDiff : num;
  residual_sq : num;
  yDiff_sq : num
}.

(** The callback of [dataPoints.map((point, index) => ...)], lines 117-135. *)
Definition tableRow (dataPoints : list (DataPoint num)) (point : DataPoint num) : Row :=
  let meanX := reduce (fun sum p => sum + p.(x)) js_zero dataPoints / #(length dataPoints) in
  let meanY := reduce (fun sum p => sum + p.(y)) js_zero dataPoints / #(length dataPoints) in
  let xDiff := point.(x) - meanX in
  let yDiff := point.(y) - meanY in
  let n := length dataPoints in
  let sumXY := reduce (fun acc p => acc + p.(x) * p.(y)) js_zero dataPoints in
  let sumXX := reduce (fun acc p => acc + p.(x) * p.(x)) js_zero dataPoints in
  let sumX := reduce (fun acc p => acc + p.(x)) js_zero dataPoints in
  let sumY := reduce (fun acc p => acc + p.(y)) js_zero dataPoints in
  let sxx := sumXX - (sumX * sumX) / #n in
  let scp := sumXY - (sumX * sumY) / #n in
  let slope := scp / sxx in
  let intercept := meanY - slope * meanX in
  let yPredicted := slope * point.(x) + intercept in
  let residual := point.(y) - yPredicted in
  {| cell_x := point.(x); cell_y := point.(y); yPredicted := yPredicted;
     xDiff := xDiff; yDiff := yDiff; residual := residual;
     xDiff_sq := xDiff * xDiff; xDiff_yDiff := xDiff * yDiff;
     residual_sq := residual * residual; yDiff_sq := yDiff * yDiff |}.

(** The table body: one row per point, in dataset order. *)
Definition tableBody (dataPoints : list (DataPoint num)) : list Row :=
  map (tableRow dataPoints) dataPoints.

(** Footer cell [SXX], lines 197-203. *)
Definition footerSXX (dataPoints : list (DataPoint num)) : num :=
  reduce (fun sum point =>
    let meanX := reduce (fun s p => s + p.(x)) js_zero dataPoints / #(length dataPoints) in
    let xDiff := point.(x) - meanX in
    sum + xDiff * xDiff) js_zero dataPoints.

(** Footer cell [SCP], lines 206-214. *)
Definition footerSCP (dataPoints : list (DataPoint num)) : num :=
  reduce (fun sum point =>
    let meanX := reduce (fun s p => s + p.(x)) js_zero dataPoints / #(length dataPoints) in
    let meanY := reduce (fun s p => s + p.(y)) js_zero dataPoints / #(length dataPoints) in
    let xDiff := point.(x) - meanX in
    let yDiff := point.(y) - meanY in
    sum + xDiff * yDiff) js_zero dataPoints.

(** Footer cell [SS_res], lines 217-234. *)
Definition footerSSres (dataPoints : list (DataPoint num)) : num :=
  reduce (fun sum point =>
    let meanX := reduce (fun s p => s + p.(x)) js_zero dataPoints / #(length dataPoints) in
    let meanY := reduce (fun s p => s + p.(y)) js_zero dataPoints / #(length dataPoints) in
    let n := length dataPoints in
    let sumXY := reduce (fun acc p => acc + p.(x) * p.(y)) js_zero dataPoints in
    let sumXX := reduce (fun acc p => acc + p.(x) * p.(x)) js_zero dataPoints in
    let sumX := reduce (fun acc p => acc + p.(x)) js_zero dataPoints in
    let sumY := reduce (fun acc p => acc + p.(y)) js_zero dataPoints in
    let sxx := sumXX - (sumX * sumX) / #n in
    let scp := sumXY - (sumX * sumY) / #n in
    let slope := scp / sxx in
    let intercept := meanY - slope * meanX in
    let yPredicted := slope * point.(x) + intercept in
    let residual := point.(y) - yPredicted in
    sum + residual * residual) js_zero dataPoints.

(** Footer cell [SS_tot], lines 237-243. *)
Definition footerSStot (dataPoints : list (DataPoint num)) : num :=
  reduce (fun sum point =>
    let meanY := reduce (fun s p => s + p.(y)) js_zero dataPoints / #(length dataPoints) in
    let yDiff := point.(y) - meanY in
    sum + yDiff * yDiff) js_zero dataPoints.
End WithNumbers.
Arguments Row num : clear implicits.
End App.

(** Decimal text of an integer, as a template literal prints [${n}]. *)
Definition decimal_of_nat (k : nat) : string :=
  NilZero.string_of_uint (Nat.to_uint k).

(** ** components/GemmaChatbot.tsx

    [generateDataContext] occurs twice in the file (lines 120-145 and
    443-468) with the same text; one definition embeds both. *)
Module GemmaChatbot.
Section WithNumbers.
Context {num : Type} `{JsNumber num}.
Variable toFixed : num -> nat -> string.
Local Open Scope js_scope.

(** The local constants of [generateDataContext] past its first line. *)
Record Locals : Type := {
  n : nat;
  meanX : num;
  meanY : num;
  sumXY : num;
  sumXX : num;
  sumYY : num;
  sumX : num;
  sumY : num;
  numerator : num;
  denominator : num;
  correlation : num;
  sxx : num;
  scp : num;
  slope : num;
  intercept : num
}.

Definition locals (dataPoints : list (DataPoint num)) : Locals :=
  let n := length dataPoints in
  let meanX := reduce (fun sum p => sum + p.(x)) js_zero dataPoints / #n in
  let meanY := reduce (fun sum p => sum + p.(y)) js_zero dataPoints / #n in
  let sumXY := reduce (fun acc p => acc + p.(x) * p.(y)) js_zero dataPoints in
  let sumXX := reduce (fun acc p => acc + p.(x) * p.(x)) js_zero dataPoints in
  let sumYY := reduce (fun acc p => acc + p.(y) * p.(y)) js_zero dataPoints in
  let sumX := reduce (fun acc p => acc + p.(x)) js_zero dataPoints in
  let sumY := reduce (fun acc p => acc + p.(y)) js_zero dataPoints in
  let numerator := #n * sumXY - sumX * sumY in
  let denominator :=
    Math_sqrt ((#n * sumXX - sumX * sumX) * (#n * sumYY - sumY * sumY)) in
  let correlation :=
    if denominator !== js_zero then numerator / denominator else js_zero in
  let sxx := sumXX - (sumX * sumX) / #n in
  let scp := sumXY - (sumX * sumY) / #n in
  let slope := if sxx !== js_zero then scp / sxx else js_zero in
  let intercept := meanY - slope * meanX in
  {| n := n; meanX := meanX; meanY := meanY; sumXY := sumXY; sumXX := sumXX;
     sumYY := sumYY; sumX := sumX; sumY := sumY; numerator := numerator;
     denominator := denominator; correlation := correlation; sxx := sxx;
     scp := scp; slope := slope; intercept := intercept |}.

(** [generateDataContext]: the early return, then the template literal. *)
Definition generateDataContext (dataPoints : list (DataPoint num)) : string :=
  if length dataPoints =? 0 then "No data points have been entered yet." else
  let v := locals dataPoints in
  ("Current dataset: " ++ decimal_of_nat v.(n) ++ " data points. Mean X: "
     ++ toFixed v.(meanX) 2 ++ ", Mean Y: " ++ toFixed v.(meanY) 2
     ++ ". Linear regression: y = " ++ toFixed v.(slope) 3 ++ "x + "
     ++ toFixed v.(intercept) 3 ++ ". Correlation coefficient: "
     ++ toFixed v.(correlation) 3 ++ ".")%string.
End WithNumbers.
Arguments Locals num : clear implicits.
End GemmaChatbot.

(** ** components/DataInput.tsx *)
Module DataInput.
Section WithNumbers.
Context {num : Type} `{JsNumber num}.
Variable parseFloat : string -> num.

(** The two text fields: [useState<string>('')], twice. *)
Record State : Type := { x : string; y : string }.

Definition initialState : State := {| x := ""; y := "" |}.

(** [onChange={(e) => setX(e.target.value)}] and the same for [y]. *)
Definition setX (st : State) (value : string) : State := {| x := value; y := st.(y) |}.
Definition setY (st : State) (value : string) : State := {| x := st.(x); y := value |}.

(** A handler yields the next field state and the calls of [onDataAdd] it
    made, in order.  [e.preventDefault()] and the focus moved to the x field
    leave both untouched. *)
Definition handleSubmit (st : State) : State * list (DataPoint num) :=
  let xNum := parseFloat st.(x) in
  let yNum := parseFloat st.(y) in
  if negb (isNaN xNum) && negb (isNaN yNum)
  then ({| x := ""; y := "" |}, [Build_DataPoint xNum yNum])
  else (st, []).

Definition handleYKeyDown (key : string) (st : State) : State * list (DataPoint num) :=
  if String.eqb key "Enter" then
    let xNum := parseFloat st.(x) in
    let yNum := parseFloat st.(y) in
    if negb (isNaN xNum) && negb (isNaN yNum)
    then ({| x := ""; y := "" |}, [Build_DataPoint xNum yNum])
    else (st, [])
  else (st, []).
End WithNumbers.
End DataInput.

(** ** The page: [App] owning the dataset, [DataInput] feeding it *)
Module Session.
Section WithNumbers.
Context {num : Type} `{JsNumber num}.
Variable parseFloat : string -> num.

(** What the user can do to the form and the table. *)
Inductive Event : Type :=
| ChangeX (value : string)
| ChangeY (value : string)
| Submit
| YKeyDown (key : string)
| ClearAll
| DeleteRow (index : nat).

Record State : Type := {
  dataPoints : list (DataPoint num);
  fields : DataInput.State
}.

Definition initialState : State :=
  {| dataPoints := []; fields := DataInput.initialState |}.

(** [onDataAdd={handleDataAdd}]: every call appends to the dataset. *)
Definition deliver (st : State) (r : DataInput.State * list (DataPoint num)) : State :=
  {| dataPoints := fold_left App.handleDataAdd (snd r) st.(dataPoints);
     fields := fst r |}.

Definition step (st : State) (e : Event) : State :=
  match e with
  | ChangeX value =>
      {| dataPoints := st.(dataPoints); fields := DataInput.setX st.(fields) value |}
  | ChangeY value =>
      {| dataPoints := st.(dataPoints); fields := DataInput.setY st.(fields) value |}
  | Submit => deliver st (DataInput.handleSubmit parseFloat st.(fields))
  | YKeyDown key => deliver st (DataInput.handleYKeyDown parseFloat key st.(fields))
  | ClearAll => {| dataPoints := App.handleClear; fields := st.(fields) |}
  | DeleteRow index =>
      {| dataPoints := App.handleDeletePoint st.(dataPoints) index;
         fields := st.(fields) |}
  end.

Definition run (events : list Event) : State := fold_left step events initialState.
End WithNumbers.
Arguments Event : clear implicits.
End Session.

(** ** The instance the program runs on: IEEE 754 binary64 *)

#[export] Instance Float64 : JsNumber float := {|
  js_zero := 0%float;
  js_add := PrimFloat.add;
  js_sub := PrimFloat.sub;
  js_mul := PrimFloat.mul;
  js_div := PrimFloat.div;
  Math_sqrt := PrimFloat.sqrt;
  js_strict_neq := fun a b => negb (PrimFloat.eqb a b);
  isNaN := PrimFloat.is_nan;
  (* exact for every array length: lengths stay below 2^32 *)
  of_length := fun k => PrimFloat.of_uint63 (Uint63.of_Z (Z.of_nat k))
|}.

(** A binary64 value that is neither NaN nor an infinity. *)
Definition isFinite (v : float) : bool :=
  negb (PrimFloat.is_nan v) && negb (PrimFloat.is_infinity v).

(** [Number.prototype.toFixed] on binary64 (ECMA-262, 21.1.3.3). *)
Module NumberPrototype.
(** The integer [n] for which [n / 10^f - v] is as close to zero as possible,
    the larger one on a tie, for [v = m * 2^e > 0]. *)
Definition nearest_scaled (m : positive) (e : Z) (fractionDigits : nat) : N :=
  let scaled := (Z.pos m * 10 ^ Z.of_nat fractionDigits)%Z in
  if (0 <=? e)%Z then Z.to_N (scaled * 2 ^ e)
  else Z.to_N ((2 * scaled + 2 ^ (- e)) / (2 * 2 ^ (- e))).

Fixpoint zeros (k : nat) : string :=
  match k with
  | O => EmptyString
  | S k' => String "0" (zeros k')
  end.

(** The digits of [n] with a decimal point before the last [fractionDigits]
    of them, zero-padded on the left to at least one integer digit. *)
Definition place_point (n : N) (fractionDigits : nat) : string :=
  let m := NilZero.string_of_uint (N.to_uint n) in
  if fractionDigits =? 0 then m else
  let k := String.length m in
  let m := if k <=? fractionDigits then (zeros (fractionDigits + 1 - k) ++ m)%string else m in
  let k := String.length m in
  (substring 0 (k - fractionDigits) m ++ "."
     ++ substring (k - fractionDigits) fractionDigits m)%string.

(** [v.toFixed(fractionDigits)], for [fractionDigits] up to 100 (the program
    passes 2, 3 and 4).  For a finite [v] of magnitude at least [10^21] the
    standard delegates to [Number::toString], which is taken as the
    parameter [Number_toString]. *)
Definition toFixed (Number_toString : float -> string) (v : float)
  (fractionDigits : nat) : string :=
  match Prim2SF v with
  | S754_nan => "NaN"%string
  | S754_infinity s => (if s then "-Infinity" else "Infinity")%string
  | S754_zero _ => place_point 0 fractionDigits
  | S754_finite s m e =>
      let sign := (if s then "-" else "")%string in
      if PrimFloat.leb 1e21%float (PrimFloat.abs v)
      then (sign ++ Number_toString (PrimFloat.abs v))%string
      else (sign ++ place_point (nearest_scaled m e fractionDigits) fractionDigits)%string
  end.
End NumberPrototype.

(** ** What is shown on the page

    Every number on the page goes through [toFixed]; these are the texts the
    components put in the document. *)
Module Rendered.
Section WithNumbers.
Context {num : Type} `{JsNumber num}.
Variable toFixed : num -> nat -> string.
Local Open Scope string_scope.

(** RegressionCalculations: the early return on [!stats], else the equation
    box [y = {slope.toFixed(4)}x + {intercept.toFixed(4)}]. *)
Definition equation (stats : option (RegressionCalculations.Stats num)) : string :=
  match stats with
  | None => "Add at least 2 points to see calculations"
  | Some s =>
      "y = " ++ toFixed (RegressionCalculations.slope s) 4 ++ "x + "
        ++ toFixed (RegressionCalculations.intercept s) 4
  end.

(** App: the ten [<td>] of a row, left to right. *)
Definition row (r : App.Row num) : list string :=
  [ toFixed (App.cell_x r) 4; toFixed (App.cell_y r) 4; toFixed (App.yPredicted r) 4;
    toFixed (App.xDiff r) 4; toFixed (App.yDiff r) 4; toFixed (App.residual r) 4;
    toFixed (App.xDiff_sq r) 4; toFixed (App.xDiff_yDiff r) 4;
    toFixed (App.residual_sq r) 4; toFixed (App.yDiff_sq r) 4 ]%list.

(** App: the table body, shown only under [dataPoints.length > 0]. *)
Definition table (dataPoints : list (DataPoint num)) : list (list string) :=
  if App.showsTable dataPoints then map row (App.tableBody dataPoints) else []%list.

(** App: the four sums of the table footer. *)
Definition footer (dataPoints : list (DataPoint num)) : list string :=
  [ ("SXX = " ++ toFixed (App.footerSXX dataPoints) 4)%string;
    ("SCP = " ++ toFixed (App.footerSCP dataPoints) 4)%string;
    ("SS_{res} = " ++ toFixed (App.footerSSres dataPoints) 4)%string;
    ("SS_{tot} = " ++ toFixed (App.footerSStot dataPoints) 4)%string ]%list.
End WithNumbers.
End Rendered.

(** ** The formulas as the specification words them

    Section 4.1 of the specification, steps 1 to 7, for comparison with the
    code above. *)
Module Spec.
Section WithNumbers.
Context {num : Type} `{JsNumber num}.
Local Open Scope js_scope.

(** Step 2: the running sums of one pass over the points. *)
Record Sums : Type :=
  { sumX : num; sumY : num; sumXY : num; sumXX : num; sumYY : num }.

Fixpoint accumulate (acc : Sums) (points : list (DataPoint num)) : Sums :=
  match points with
  | [] => acc
  | p :: rest =>
      accumulate {| sumX := acc.(sumX) + p.(x);
                    sumY := acc.(sumY) + p.(y);
                    sumXY := acc.(sumXY) + p.(x) * p.(y);
                    sumXX := acc.(sumXX) + p.(x) * p.(x);
                    sumYY := acc.(sumYY) + p.(y) * p.(y) |} rest
  end.

Definition singlePass (points : list (DataPoint num)) : Sums :=
  accumulate {| sumX := js_zero; sumY := js_zero; sumXY := js_zero;
                sumXX := js_zero; sumYY := js_zero |}
    points.

(** Steps 3 to 5. *)
Definition meanX (points : list (DataPoint num)) : num :=
  (singlePass points).(sumX) / #(length points).

Definition meanY (points : list (DataPoint num)) : num :=
  (singlePass points).(sumY) / #(length points).

Definition SXX (points : list (DataPoint num)) : num :=
  let s := singlePass points in
  s.(sumXX) - (s.(sumX) * s.(sumX)) / #(length points).

Definition SCP (points : list (DataPoint num)) : num :=
  let s := singlePass points in
  s.(sumXY) - (s.(sumX) * s.(sumY)) / #(length points).

Definition slope (points : list (DataPoint num)) : num := SCP points / SXX points.

Definition intercept (points : list (DataPoint num)) : num :=
  meanY points - slope points * meanX points.

(** The sum of squared residuals of the points about the line [y = a x + b]. *)
Definition squaredError (a b : num) (points : list (DataPoint num)) : num :=
  reduce (fun sum p =>
            sum + (p.(y) - (a * p.(x) + b)) * (p.(y) - (a * p.(x) + b)))
    js_zero points.

(** Step 8: the numerator and the denominator of the correlation. *)
Definition correlationNumerator (points : list (DataPoint num)) : num :=
  let s := singlePass points in
  #(length points) * s.(sumXY) - s.(sumX) * s.(sumY).

Definition correlationDenominator (points : list (DataPoint num)) : num :=
  let s := singlePass points in
  Math_sqrt ((#(length points) * s.(sumXX) - s.(sumX) * s.(sumX))
             * (#(length points) * s.(sumYY) - s.(sumY) * s.(sumY))).

(** Step 7: [R^2 = 1 - SSres / SStot]. *)
Definition rSquared (ssres sstot : num) : num := #1 - ssres / sstot.
End WithNumbers.
Arguments Sums num : clear implicits.
End Spec.

(** ** [parseFloat] on plain decimal literals

    [parseFloat] is a built-in; the handlers are stated over any function of
    its type.  This is its value on the strings typed in the examples below:
    an optional sign, digits, an optional fraction; no leading white space,
    no exponent part, not the word Infinity, at most 15 digits in all (so
    that both the digit string and the power of ten are exact and their
    quotient is correctly rounded).  Text after the literal is ignored, and a
    string with no digit gives NaN. *)
Module PlainLiteral.
Definition is_digit (c : ascii) : bool :=
  let k := nat_of_ascii c in (48 <=? k) && (k <=? 57).

(** Reads digits off the front: the value so far, digits read, the rest. *)
Fixpoint digits (acc : Z) (count : nat) (s : string) : Z * nat * string :=
  match s with
  | String c rest =>
      if is_digit c
      then digits (10 * acc + Z.of_nat (nat_of_ascii c - 48)) (S count) rest
      else (acc, count, s)
  | EmptyString => (acc, count, s)
  end.

Definition float_of_Z (k : Z) : float := PrimFloat.of_uint63 (Uint63.of_Z k).

Definition unsigned (s : string) : float :=
  let '(whole, k1, rest) := digits 0 0 s in
  match rest with
  | String "."%char frac =>
      let '(all, k2, _) := digits whole 0 frac in
      if (k1 + k2 =? 0)%nat then PrimFloat.nan
      else PrimFloat.div (float_of_Z all) (float_of_Z (10 ^ Z.of_nat k2))
  | _ => if (k1 =? 0)%nat then PrimFloat.nan else float_of_Z whole
  end.

Definition parseFloat (s : string) : float :=
  match s with
  | String "-"%char rest => PrimFloat.opp (unsigned rest)
  | String "+"%char rest => unsigned rest
  | _ => unsigned s
  end.
End PlainLiteral.

(** ** Datasets used in the statements *)
Module Fixture.
Definition point (a b : string) : DataPoint float :=
  Build_DataPoint (PlainLiteral.parseFloat a) (PlainLiteral.parseFloat b).

(** The known fixture of the specification, section 8. *)
Definition known : list (DataPoint float) :=
  [ point "1" "2"; point "2" "4"; point "3" "5"; point "4" "4"; point "5" "5" ].

(** [summarize([{2,1},{2,5}])] of the specification: two points, equal x. *)
Definition equalX : list (DataPoint float) := [ point "2" "1"; point "2" "5" ].

(** One point. *)
Definition single : list (DataPoint float) := [ point "1" "1" ].

(** Three points with zero correlation and a non-zero denominator. *)
Definition tent : list (DataPoint float) := [ point "0" "0"; point "1" "1"; point "2" "0" ].

(** Three points entered with the same x value 1.3. *)
Definition equalTenths : list (DataPoint float) :=
  [ point "1.3" "1"; point "1.3" "2"; point "1.3" "3" ].

(** The form with 1.5 typed for x and nothing for y. *)
Definition halfFilled : DataInput.State := {| DataInput.x := "1.5"; DataInput.y := "" |}.

(** The known fixture, last point first. *)
Definition knownReversed : list (DataPoint float) := rev known.

(** The y values of the known fixture at x = 10000.1, ..., 10000.5. *)
Definition readings : list (DataPoint float) :=
  [ point "10000.1" "2"; point "10000.2" "4"; point "10000.3" "5";
    point "10000.4" "4"; point "10000.5" "5" ].

(** The same readings, last one first. *)
Definition readingsReversed : list (DataPoint float) := rev readings.

(** Three readings taken one second apart, x in milliseconds since 1970. *)
Definition timestamps : list (DataPoint float) :=
  [ point "1700000000000" "1"; point "1700000001000" "3"; point "1700000002000" "2" ].

(** The same readings, last one first. *)
Definition timestampsReversed : list (DataPoint float) := rev timestamps.

(** The y values of the known fixture on five days, x as yyyymmdd. *)
Definition dates : list (DataPoint float) :=
  [ point "20230101" "2"; point "20230102" "4"; point "20230103" "5";
    point "20230104" "4"; point "20230105" "5" ].
End Fixture.

(** ** The sum of a table column *)

(** The cells [cell] of the rows, added from the first row to the last. *)
Definition columnSum {num : Type} `{JsNumber num} (cell : App.Row num -> num)
  (rows : list (App.Row num)) : num :=
  reduce (fun sum r => (sum + cell r)%js) js_zero rows.

(** ** components/GemmaChatbot.tsx: the conversation window

    [estimateTokens] and [createConversationContext] of the worker-backed
    component (lines 470-501).  A JavaScript string is a sequence of 16-bit
    code units and [length] counts them; here a string is a sequence of
    code units below 256, which [String.length] counts. *)
Module Conversation.
(** [interface Message]; the timestamp is the time value of the [Date]. *)
Record Message : Type := {
  id : string;
  text : string;
  isUser : bool;
  timestamp : Z
}.

(** [Math.ceil(a / b)] for whole numbers [a >= 0] and [b > 0]. *)
Definition Math_ceil_quotient (a b : Z) : Z := (- ((- a) / b))%Z.

(** [estimateTokens]: [Math.ceil(text.length / 4)]. *)
Definition estimateTokens (text : string) : Z :=
  Math_ceil_quotient (Z.of_nat (String.length text)) 4.

(** The line feed, and the ['\n\n'] put after each message. *)
Definition lineFeed : ascii := ascii_of_nat 10.
Definition blankLine : string := String lineFeed (String lineFeed EmptyString).

(** [`${message.isUser ? 'Human' : 'Assistant'}: ${message.text}`] *)
Definition messageText (message : Message) : string :=
  ((if message.(isUser) then "Human" else "Assistant") ++ ": " ++ message.(text))%string.

(** The [for] loop, with [recent] the entries [messages[i]], [messages[i-1]],
    ..., [messages[1]] still to visit; it yields [conversationHistory] and
    [totalTokens] as they are when the loop ends or breaks. *)
Fixpoint collect (availableTokens : Z) (recent : list Message)
  (conversationHistory : string) (totalTokens : Z) : string * Z :=
  match recent with
  | [] => (conversationHistory, totalTokens)
  | message :: older =>
      let messageText := messageText message in
      let messageTokens := estimateTokens messageText in
      if (totalTokens + messageTokens >? availableTokens)%Z
      then (conversationHistory, totalTokens)
      else collect availableTokens older
             (messageText ++ blankLine ++ conversationHistory)%string
             (totalTokens + messageTokens)%Z
  end.

(** The white space and line terminators of ECMAScript among the code units
    below 256: tab, line feed, vertical tab, form feed, carriage return,
    space and no-break space. *)
Definition isWhiteSpace (c : ascii) : bool :=
  let k := nat_of_ascii c in
  (k =? 9) || (k =? 10) || (k =? 11) || (k =? 12) || (k =? 13) || (k =? 32)
  || (k =? 160).

Fixpoint dropWhiteSpace (l : list ascii) : list ascii :=
  match l with
  | c :: rest => if isWhiteSpace c then dropWhiteSpace rest else l
  | [] => []
  end.

(** [String.prototype.trim]. *)
Definition trim (s : string) : string :=
  string_of_list_ascii
    (rev (dropWhiteSpace (rev (dropWhiteSpace (list_ascii_of_string s))))).

(** [createConversationContext]; the loop starts at the last message and
    stops before [messages[0]], the greeting. *)
Definition createConversationContext (messages : list Message)
  (currentQuestion : string) : string :=
  let maxContextTokens := 4000%Z in
  let systemPromptTokens := 200%Z in
  let responseTokens := 150%Z in
  let availableTokens :=
    (maxContextTokens - systemPromptTokens - responseTokens
     - estimateTokens currentQuestion)%Z in
  trim (fst (collect availableTokens (rev (tl messages)) "" 0%Z)).

(** The messages of a list, each followed by a blank line, in list order. *)
Fixpoint transcript (messages : list Message) : string :=
  match messages with
  | [] => EmptyString
  | message :: rest => (messageText message ++ blankLine ++ transcript rest)%string
  end.

(** The estimated tokens of the messages of a list, added up. *)
Fixpoint tokensOf (messages : list Message) : Z :=
  match messages with
  | [] => 0%Z
  | message :: rest => (estimateTokens (messageText message) + tokensOf rest)%Z
  end.
End Conversation.

(** A short conversation: the greeting, a question and its answer. *)
Module Chat.
Definition greeting : Conversation.Message :=
  {| Conversation.id := "1";
     Conversation.text := "Hi! I'm your AI assistant powered by Gemma 3.";
     Conversation.isUser := false;
     Conversation.timestamp := 0 |}.

Definition question : Conversation.Message :=
  {| Conversation.id := "1700000000000";
     Conversation.text := "What is the slope?";
     Conversation.isUser := true;
     Conversation.timestamp := 1700000000000 |}.

Definition answer : Conversation.Message :=
  {| Conversation.id := "1700000000500_ai";
     Conversation.text := "Your regression line is y = 0.600x + 2.200.";
     Conversation.isUser := false;
     Conversation.timestamp := 1700000000500 |}.

Definition messages : list Conversation.Message := [greeting; question; answer].
End Chat.

(** ** components/GemmaChatbot.tsx: the fallback answers

    The string built-ins that [getSimpleResponse] uses, on strings of code
    units below 256. *)
Module Text.
(** The rest of [s] after the literal, when [s] starts with it. *)
Fixpoint stripPrefix (literal s : string) : option string :=
  match literal with
  | EmptyString => Some s
  | String c literal' =>
      match s with
      | String d s' => if Ascii.eqb c d then stripPrefix literal' s' else None
      | EmptyString => None
      end
  end.

(** [s.includes(searchString)]. *)
Fixpoint includes (s searchString : string) : bool :=
  match stripPrefix searchString s with
  | Some _ => true
  | None =>
      match s with
      | String _ s' => includes s' searchString
      | EmptyString => false
      end
  end.

(** The character class [[-\d.]] of the two regular expressions. *)
Definition inClass (c : ascii) : bool :=
  Ascii.eqb c "-" || PlainLiteral.is_digit c || Ascii.eqb c ".".

(** The longest run of class characters at the front of [s], and the rest:
    what a greedy [[-\d.]+] takes when it can take anything. *)
Fixpoint span (s : string) : string * string :=
  match s with
  | String c s' =>
      if inClass c then let (run, rest) := span s' in (String c run, rest)
      else (EmptyString, s)
  | EmptyString => (EmptyString, EmptyString)
  end.

(** [s.match(/Correlation coefficient: ([-\d.]+)/)]: the group of the
    leftmost match, [None] for [null]. *)
Fixpoint matchCorrelation (s : string) : option string :=
  let later :=
    match s with
    | String _ s' => matchCorrelation s'
    | EmptyString => None
    end in
  match stripPrefix "Correlation coefficient: " s with
  | Some rest =>
      match span rest with
      | (EmptyString, _) => later
      | (run, _) => Some run
      end
  | None => later
  end.

(** [s.match(/y = ([-\d.]+)x \+ ([-\d.]+)/)]: the two groups of the leftmost
    match.  The character after the first group must be [x], which is not
    in the class, so only the longest run can be followed by it. *)
Fixpoint matchLine (s : string) : option (string * string) :=
  let later :=
    match s with
    | String _ s' => matchLine s'
    | EmptyString => None
    end in
  match stripPrefix "y = " s with
  | Some rest =>
      match span rest with
      | (EmptyString, _) => later
      | (first, rest') =>
          match stripPrefix "x + " rest' with
          | Some rest'' =>
              match span rest'' with
              | (EmptyString, _) => later
              | (second, _) => Some (first, second)
              end
          | None => later
          end
      end
  | None => later
  end.


(** ['r²']: the letter r and the code unit 178 of the superscript two. *)
Definition rSuperscriptTwo : string := String "r" (String (ascii_of_nat 178) EmptyString).
End Text.


(** The thresholds 0.8 and 0.5 of the answers, as binary64 numbers. *)
Definition threshold_strong : float := 0x1.999999999999ap-1%float.
Definition threshold_moderate : float := 0.5%float.

(** [getSimpleResponse] of the component that loads the model itself (lines
    272-303). *)
Module LocalModelChat.
Section WithBuiltins.
Variable toLowerCase : string -> string.
Variable parseFloat : string -> float.
Variable toFixed : float -> nat -> string.
Local Open Scope string_scope.

Definition getSimpleResponse (question dataContext : string) : string :=
  let q := toLowerCase question in
  let fromThirdTest :=
    if Text.includes q "regression" || Text.includes q "line" then
      "Linear regression finds the best-fitting straight line through your data points. It helps predict Y values based on X values and shows the relationship strength between variables."
    else if Text.includes q "r-squared" || Text.includes q Text.rSuperscriptTwo then
      "R-squared measures how well your regression line fits the data. Values closer to 1.0 indicate a better fit, meaning the line explains more of the variation in your data."
    else
      "I can help explain linear regression concepts like correlation, slope, intercept, and R-squared. Try asking about these specific topics!" in
  let fromSecondTest :=
    if Text.includes q "slope" || Text.includes q "intercept" then
      match Text.matchLine dataContext with
      | Some (first, second) =>
          "Your regression line is y = " ++ first ++ "x + " ++ second
            ++ ". The slope (" ++ first
            ++ ") tells you how much Y changes for each unit increase in X."
      | None => fromThirdTest
      end
    else fromThirdTest in
  if Text.includes q "correlation" || Text.includes q "r" then
    match Text.matchCorrelation dataContext with
    | Some group =>
        let r := parseFloat group in
        if PrimFloat.ltb threshold_strong (PrimFloat.abs r) then
          "Your correlation coefficient is " ++ toFixed r 3
            ++ ", which indicates a strong "
            ++ (if PrimFloat.ltb 0 r then "positive" else "negative")
            ++ " linear relationship between your variables."
        else if PrimFloat.ltb threshold_moderate (PrimFloat.abs r) then
          "Your correlation coefficient is " ++ toFixed r 3
            ++ ", which indicates a moderate "
            ++ (if PrimFloat.ltb 0 r then "positive" else "negative")
            ++ " linear relationship."
        else
          "Your correlation coefficient is " ++ toFixed r 3
            ++ ", which indicates a weak linear relationship between your variables."
    | None => fromSecondTest
    end
  else fromSecondTest.
End WithBuiltins.
End LocalModelChat.

(** [getSimpleResponse] of the worker-backed component (lines 627-680);
    [conversationHistory] is the optional third argument. *)
Module WorkerModelChat.
Section WithBuiltins.
Variable toLowerCase : string -> string.
Variable parseFloat : string -> float.
Variable toFixed : float -> nat -> string.
Local Open Scope string_scope.

(** [conversationHistory?.includes(word)], as a condition. *)
Definition historyIncludes (conversationHistory : option string) (word : string) : bool :=
  match conversationHistory with
  | Some history => Text.includes history word
  | None => false
  end.

(** [conversationHistory && (...)], as a condition: an absent or empty
    history is falsy. *)
Definition isFollowUp (q : string) (conversationHistory : option string) : bool :=
  match conversationHistory with
  | Some (String _ _) =>
      Text.includes q "what about" || Text.includes q "and" || Text.includes q "also"
      || Text.includes q "how about" || Text.includes q "explain that"
      || Text.includes q "tell me more"
  | _ => false
  end.

Definition getSimpleResponse (question dataContext : string)
  (conversationHistory : option string) : string :=
  let q := toLowerCase question in
  let isFollowUp := isFollowUp q conversationHistory in
  let fromFifthTest :=
    if isFollowUp then
      "I understand you're asking a follow-up question, but I need my full AI capabilities to maintain context properly. Please try again when the AI model is loaded, or rephrase your question more specifically."
    else
      "I can help explain linear regression concepts like correlation, slope, intercept, and R-squared. Try asking about these specific topics!" in
  let fromThirdTest :=
    if Text.includes q "regression" || Text.includes q "line" then
      "Linear regression finds the best-fitting straight line through your data points. It helps predict Y values based on X values and shows the relationship strength between variables."
    else if Text.includes q "r-squared" || Text.includes q Text.rSuperscriptTwo then
      let response :=
        "R-squared measures how well your regression line fits the data. Values closer to 1.0 indicate a better fit, meaning the line explains more of the variation in your data." in
      if isFollowUp && historyIncludes conversationHistory "correlation" then
        response ++ " R-squared is actually the square of the correlation coefficient we discussed!"
      else response
    else fromFifthTest in
  let fromSecondTest :=
    if Text.includes q "slope" || Text.includes q "intercept" then
      match Text.matchLine dataContext with
      | Some (first, second) =>
          let response :=
            "Your regression line is y = " ++ first ++ "x + " ++ second
              ++ ". The slope (" ++ first
              ++ ") tells you how much Y changes for each unit increase in X." in
          if isFollowUp && historyIncludes conversationHistory "correlation" then
            response ++ " This slope is related to the correlation we discussed earlier."
          else response
      | None => fromThirdTest
      end
    else fromThirdTest in
  if Text.includes q "correlation" || Text.includes q "r" then
    match Text.matchCorrelation dataContext with
    | Some group =>
        let r := parseFloat group in
        let response :=
          "Your correlation coefficient is " ++ toFixed r 3
            ++ ", which indicates a "
            ++ (if PrimFloat.ltb threshold_strong (PrimFloat.abs r) then "strong"
                else if PrimFloat.ltb threshold_moderate (PrimFloat.abs r)
                     then "moderate" else "weak")
            ++ " " ++ (if PrimFloat.ltb 0 r then "positive" else "negative")
            ++ " linear relationship between your variables." in
        if isFollowUp && historyIncludes conversationHistory "slope" then
          response ++ " This correlation relates to the slope we discussed - stronger correlations typically have steeper slopes."
        else response
    | None => fromSecondTest
    end
  else fromSecondTest.
End WithBuiltins.
End WorkerModelChat.

(** [String.prototype.toLowerCase] on code units below 256: the capital
    letters A-Z and the capital letters of Latin-1 (192-222 but the
    multiplication sign 215) move up by 32. *)
Definition toLowerCaseUnit (c : ascii) : ascii :=
  let k := nat_of_ascii c in
  if ((65 <=? k) && (k <=? 90)) || ((192 <=? k) && (k <=? 222) && negb (k =? 215))
  then ascii_of_nat (k + 32) else c.

Fixpoint toLowerCase (s : string) : string :=
  match s with
  | String c s' => String (toLowerCaseUnit c) (toLowerCase s')
  | EmptyString => EmptyString
  end.

(** ** hooks/useAIModelWorker.ts and workers/aiModelWorker.js

    The hook and the worker exchange messages [{ id, type, payload }].  The
    requests of the hook and the answers of the worker are the types below;
    [Generated] is what the text generator returns and [Options] the
    generation options, both [any] in the source. *)
Module WorkerProtocol.
(** [ProgressUpdate]. *)
Record ProgressUpdate : Type := { status : string; progress : Z }.

Section WithPayloads.
Variable Generated : Type.
Variable Options : Type.

(** The [type] and [payload] of a message to the worker. *)
Inductive Request : Type :=
| INITIALIZE_MODEL
| GENERATE_TEXT (prompt : string) (options : option Options)
| UNKNOWN (type : string).

(** The [type] and [payload] of a message from the worker; [OTHER] is a type
    without a case in the switch of the hook. *)
Inductive Answer : Type :=
| MODEL_READY (success : bool) (modelName : string)
| PROGRESS (update : ProgressUpdate)
| TEXT_GENERATED (result : Generated)
| ERROR (error : string)
| OTHER (type : string).

Record WorkerMessage : Type := { id : string; answer : Answer }.
End WithPayloads.
Arguments INITIALIZE_MODEL {Options}.
Arguments UNKNOWN {Options} _.
Arguments MODEL_READY {Generated} _ _.
Arguments PROGRESS {Generated} _.
Arguments ERROR {Generated} _.
Arguments OTHER {Generated} _.
End WorkerProtocol.

(** ** hooks/useAIModelWorker.ts

    One instance of the hook.  Promises and workers are numbered in the
    order they are created; a state holds what the hook keeps in React state,
    in its refs and in the module variable [workerInstance], and the timers
    that are armed. *)
Module UseAIModelWorker.
Import WorkerProtocol.

(** [ModelStatus]. *)
Inductive ModelStatus : Type := loading | loaded | failed.

(** A [Map] from request ids to promises: [get], [set] and [delete]. *)
Fixpoint Map_get (key : string) (m : list (string * nat)) : option nat :=
  match m with
  | [] => None
  | (k, v) :: rest => if String.eqb k key then Some v else Map_get key rest
  end.

Fixpoint Map_set (key : string) (value : nat) (m : list (string * nat))
  : list (string * nat) :=
  match m with
  | [] => [(key, value)]
  | (k, v) :: rest =>
      if String.eqb k key then (k, value) :: rest else (k, v) :: Map_set key value rest
  end.

Definition Map_delete (key : string) (m : list (string * nat)) : list (string * nat) :=
  filter (fun entry => negb (String.eqb (fst entry) key)) m.

Section WithPayloads.
Variable Generated : Type.
Variable Options : Type.

(** How a promise ends: resolved with the payload of MODEL_READY, resolved
    with the generated result, or rejected with the message of an [Error]. *)
Inductive Outcome : Type :=
| ResolvedReady (success : bool) (modelName : string)
| ResolvedResult (result : Generated)
| Rejected (message : string).

(** What the hook does to the world outside its state. *)
Inductive Effect : Type :=
| Settle (promise : nat) (outcome : Outcome)
| NewWorker (worker : nat)
| PostMessage (worker : nat) (id : string) (request : Request Options)
| Terminate (worker : nat).

Record State : Type := {
  (* React state *)
  modelStatus : ModelStatus;
  loadedModelName : string;
  progressUpdate : option ProgressUpdate;
  (* refs and the module variable *)
  workerRef : option nat;
  workerInstance : option nat;
  pendingRequests : list (string * nat);
  isInitialized : bool;
  (* armed timers: the 60 s timeouts by promise and id, the 2 s delay of the
     first load, the 2 s timers that clear the progress *)
  timeouts : list (nat * string);
  mountTimer : bool;
  progressTimers : nat;
  (* promises with the handler [.catch(() => setModelStatus('failed'))] *)
  failsModel : list nat;
  (* the numbers of the next promise and the next worker *)
  nextPromise : nat;
  nextWorker : nat
}.

(** [useState('loading')], [useState('')], [useState(null)], and empty refs. *)
Definition initialState : State :=
  {| modelStatus := loading; loadedModelName := ""; progressUpdate := None;
     workerRef := None; workerInstance := None; pendingRequests := [];
     isInitialized := false; timeouts := []; mountTimer := false;
     progressTimers := 0; failsModel := []; nextPromise := 0; nextWorker := 0 |}.

Definition clearTimeout (promise : nat) (armed : list (nat * string))
  : list (nat * string) :=
  filter (fun t => negb (Nat.eqb (fst t) promise)) armed.

(** The status after a promise was rejected: [failed] when the promise has
    the handler that sets it. *)
Definition afterRejection (st : State) (promise : nat) : ModelStatus :=
  if existsb (Nat.eqb promise) st.(failsModel) then failed else st.(modelStatus).

(** The [resolve] of a pending entry: [clearTimeout], then the promise is
    resolved; the caller deletes the entry. *)
Definition answerRequest (st : State) (key : string) (outcome : Outcome)
  : State * list Effect :=
  match Map_get key st.(pendingRequests) with
  | Some promise =>
      ({| modelStatus :=
            match outcome with
            | Rejected _ => afterRejection st promise
            | _ => st.(modelStatus)
            end;
          loadedModelName := st.(loadedModelName);
          progressUpdate := st.(progressUpdate);
          workerRef := st.(workerRef); workerInstance := st.(workerInstance);
          pendingRequests := Map_delete key st.(pendingRequests);
          isInitialized := st.(isInitialized);
          timeouts := clearTimeout promise st.(timeouts);
          mountTimer := st.(mountTimer); progressTimers := st.(progressTimers);
          failsModel := st.(failsModel);
          nextPromise := st.(nextPromise); nextWorker := st.(nextWorker) |},
       [Settle promise outcome])
  | None => (st, [])
  end.

(** The state with a new React state. *)
Definition display (st : State) (s : ModelStatus) (name : string)
  (update : option ProgressUpdate) (moreProgressTimers : nat) : State :=
  {| modelStatus := s; loadedModelName := name; progressUpdate := update;
     workerRef := st.(workerRef); workerInstance := st.(workerInstance);
     pendingRequests := st.(pendingRequests);
     isInitialized := st.(isInitialized);
     timeouts := st.(timeouts);
     mountTimer := st.(mountTimer);
     progressTimers := st.(progressTimers) + moreProgressTimers;
     failsModel := st.(failsModel);
     nextPromise := st.(nextPromise); nextWorker := st.(nextWorker) |}.

(** [worker.onmessage]. *)
Definition onmessage (st : State) (message : WorkerMessage Generated)
  : State * list Effect :=
  match message.(answer) with
  | MODEL_READY success modelName =>
      answerRequest
        (display st loaded modelName
           (Some {| status := "Model ready!"; progress := 100 |}) 1)
        message.(id) (ResolvedReady success modelName)
  | PROGRESS update =>
      (display st st.(modelStatus) st.(loadedModelName) (Some update) 0, [])
  | TEXT_GENERATED result =>
      answerRequest st message.(id) (ResolvedResult result)
  | ERROR error =>
      answerRequest
        (display st failed st.(loadedModelName)
           (Some {| status := "Model loading failed"; progress := 0 |}) 0)
        message.(id) (Rejected error)
  | OTHER _ => (st, [])
  end.

(** [worker.onerror]. *)
Definition onerror (st : State) : State * list Effect :=
  (display st failed st.(loadedModelName) st.(progressUpdate) 0, []).

(** [initializeWorker]: the worker it returns, [None] for [undefined]. *)
Definition initializeWorker (st : State) : State * option nat * list Effect :=
  match st.(workerInstance) with
  | Some worker =>
      ({| modelStatus := st.(modelStatus); loadedModelName := st.(loadedModelName);
          progressUpdate := st.(progressUpdate);
          workerRef := Some worker; workerInstance := st.(workerInstance);
          pendingRequests := st.(pendingRequests);
          isInitialized := st.(isInitialized); timeouts := st.(timeouts);
          mountTimer := st.(mountTimer); progressTimers := st.(progressTimers);
          failsModel := st.(failsModel);
          nextPromise := st.(nextPromise); nextWorker := st.(nextWorker) |},
       None, [])
  | None =>
      let worker := st.(nextWorker) in
      ({| modelStatus := st.(modelStatus); loadedModelName := st.(loadedModelName);
          progressUpdate := st.(progressUpdate);
          workerRef := Some worker; workerInstance := Some worker;
          pendingRequests := st.(pendingRequests);
          isInitialized := st.(isInitialized); timeouts := st.(timeouts);
          mountTimer := st.(mountTimer); progressTimers := st.(progressTimers);
          failsModel := st.(failsModel);
          nextPromise := st.(nextPromise); nextWorker := S worker |},
       Some worker, [NewWorker worker])
  end.

(** [sendWorkerMessage(type, payload)], with [key] the id that
    [Math.random] gives and [reaction] telling whether the caller attaches
    the handler that sets the status to failed. *)
Definition sendWorkerMessage (st : State) (request : Request Options) (key : string)
  (reaction : bool) : State * list Effect :=
  let promise := st.(nextPromise) in
  match st.(workerRef) with
  | None =>
      ({| modelStatus := if reaction then failed else st.(modelStatus);
          loadedModelName := st.(loadedModelName);
          progressUpdate := st.(progressUpdate);
          workerRef := st.(workerRef); workerInstance := st.(workerInstance);
          pendingRequests := st.(pendingRequests);
          isInitialized := st.(isInitialized); timeouts := st.(timeouts);
          mountTimer := st.(mountTimer); progressTimers := st.(progressTimers);
          failsModel := st.(failsModel);
          nextPromise := S promise; nextWorker := st.(nextWorker) |},
       [Settle promise (Rejected "Worker not initialized")])
  | Some worker =>
      ({| modelStatus := st.(modelStatus); loadedModelName := st.(loadedModelName);
          progressUpdate := st.(progressUpdate);
          workerRef := st.(workerRef); workerInstance := st.(workerInstance);
          pendingRequests := Map_set key promise st.(pendingRequests);
          isInitialized := st.(isInitialized);
          timeouts := (promise, key) :: st.(timeouts);
          mountTimer := st.(mountTimer); progressTimers := st.(progressTimers);
          failsModel := if reaction then promise :: st.(failsModel) else st.(failsModel);
          nextPromise := S promise; nextWorker := st.(nextWorker) |},
       [PostMessage worker key request])
  end.

(** The callback of a 60 s timeout that is still armed. *)
Definition timeoutFires (st : State) (promise : nat) (key : string)
  : State * list Effect :=
  if existsb (fun t => Nat.eqb (fst t) promise && String.eqb (snd t) key) st.(timeouts)
  then
    ({| modelStatus := afterRejection st promise;
        loadedModelName := st.(loadedModelName);
        progressUpdate := st.(progressUpdate);
        workerRef := st.(workerRef); workerInstance := st.(workerInstance);
        pendingRequests := Map_delete key st.(pendingRequests);
        isInitialized := st.(isInitialized);
        timeouts := clearTimeout promise st.(timeouts);
        mountTimer := st.(mountTimer); progressTimers := st.(progressTimers);
        failsModel := st.(failsModel);
        nextPromise := st.(nextPromise); nextWorker := st.(nextWorker) |},
     [Settle promise (Rejected "Worker request timeout")])
  else (st, []).

(** [generateText]: the promise of the [async] function is rejected when the
    model is not loaded. *)
Definition generateText (st : State) (prompt : string) (options : option Options)
  (key : string) : State * list Effect :=
  match st.(modelStatus) with
  | loaded => sendWorkerMessage st (GENERATE_TEXT prompt options) key false
  | _ =>
      ({| modelStatus := st.(modelStatus); loadedModelName := st.(loadedModelName);
          progressUpdate := st.(progressUpdate);
          workerRef := st.(workerRef); workerInstance := st.(workerInstance);
          pendingRequests := st.(pendingRequests);
          isInitialized := st.(isInitialized); timeouts := st.(timeouts);
          mountTimer := st.(mountTimer); progressTimers := st.(progressTimers);
          failsModel := st.(failsModel);
          nextPromise := S st.(nextPromise); nextWorker := st.(nextWorker) |},
       [Settle st.(nextPromise) (Rejected "Model not loaded")])
  end.

(** [retryLoading]. *)
Definition retryLoading (st : State) (key : string) : State * list Effect :=
  let terminated :=
    match st.(workerRef) with
    | Some worker => [Terminate worker]
    | None => []
    end in
  let reset :=
    {| modelStatus := loading; loadedModelName := ""; progressUpdate := None;
       workerRef := None;
       workerInstance := match st.(workerRef) with
                         | Some _ => None
                         | None => st.(workerInstance)
                         end;
       pendingRequests := [];
       isInitialized := false; timeouts := st.(timeouts);
       mountTimer := st.(mountTimer); progressTimers := st.(progressTimers);
       failsModel := st.(failsModel);
       nextPromise := st.(nextPromise); nextWorker := st.(nextWorker) |} in
  let '(st1, worker, created) := initializeWorker reset in
  match worker with
  | Some _ =>
      let (st2, sent) := sendWorkerMessage st1 INITIALIZE_MODEL key false in
      (st2, terminated ++ created ++ sent)
  | None => (st1, terminated ++ created)
  end.

(** The effect that runs when the component is mounted. *)
Definition mount (st : State) : State * list Effect :=
  if st.(isInitialized) then (st, []) else
  let marked :=
    {| modelStatus := st.(modelStatus); loadedModelName := st.(loadedModelName);
       progressUpdate := st.(progressUpdate);
       workerRef := st.(workerRef); workerInstance := st.(workerInstance);
       pendingRequests := st.(pendingRequests);
       isInitialized := true; timeouts := st.(timeouts);
       mountTimer := st.(mountTimer); progressTimers := st.(progressTimers);
       failsModel := st.(failsModel);
       nextPromise := st.(nextPromise); nextWorker := st.(nextWorker) |} in
  let '(st1, worker, created) := initializeWorker marked in
  match worker with
  | Some _ =>
      ({| modelStatus := st1.(modelStatus); loadedModelName := st1.(loadedModelName);
          progressUpdate := st1.(progressUpdate);
          workerRef := st1.(workerRef); workerInstance := st1.(workerInstance);
          pendingRequests := st1.(pendingRequests);
          isInitialized := st1.(isInitialized); timeouts := st1.(timeouts);
          mountTimer := true; progressTimers := st1.(progressTimers);
          failsModel := st1.(failsModel);
          nextPromise := st1.(nextPromise); nextWorker := st1.(nextWorker) |},
       created)
  | None => (st1, created)
  end.

(** The callback of the 2 s delay: the first INITIALIZE_MODEL. *)
Definition mountTimerFires (st : State) (key : string) : State * list Effect :=
  if st.(mountTimer) then
    sendWorkerMessage
      {| modelStatus := st.(modelStatus); loadedModelName := st.(loadedModelName);
         progressUpdate := st.(progressUpdate);
         workerRef := st.(workerRef); workerInstance := st.(workerInstance);
         pendingRequests := st.(pendingRequests);
         isInitialized := st.(isInitialized); timeouts := st.(timeouts);
         mountTimer := false; progressTimers := st.(progressTimers);
         failsModel := st.(failsModel);
         nextPromise := st.(nextPromise); nextWorker := st.(nextWorker) |}
      INITIALIZE_MODEL key true
  else (st, []).

(** The callback of a 2 s timer set by MODEL_READY: [setProgressUpdate(null)]. *)
Definition progressTimerFires (st : State) : State * list Effect :=
  match st.(progressTimers) with
  | S remaining =>
      ({| modelStatus := st.(modelStatus); loadedModelName := st.(loadedModelName);
          progressUpdate := None;
          workerRef := st.(workerRef); workerInstance := st.(workerInstance);
          pendingRequests := st.(pendingRequests);
          isInitialized := st.(isInitialized); timeouts := st.(timeouts);
          mountTimer := st.(mountTimer); progressTimers := remaining;
          failsModel := st.(failsModel);
          nextPromise := st.(nextPromise); nextWorker := st.(nextWorker) |}, [])
  | O => (st, [])
  end.

(** Everything that can happen to the hook. *)
Inductive Event : Type :=
| Mount
| MountTimerFires (key : string)
| Receive (message : WorkerMessage Generated)
| WorkerError
| TimeoutFires (promise : nat) (key : string)
| ProgressTimerFires
| GenerateText (prompt : string) (options : option Options) (key : string)
| RetryLoading (key : string).

Definition step (st : State) (e : Event) : State * list Effect :=
  match e with
  | Mount => mount st
  | MountTimerFires key => mountTimerFires st key
  | Receive message => onmessage st message
  | WorkerError => onerror st
  | TimeoutFires promise key => timeoutFires st promise key
  | ProgressTimerFires => progressTimerFires st
  | GenerateText prompt options key => generateText st prompt options key
  | RetryLoading key => retryLoading st key
  end.

(** The state and all effects, oldest first, after a sequence of events. *)
Fixpoint runFrom (st : State) (events : list Event) : State * list Effect :=
  match events with
  | [] => (st, [])
  | e :: later =>
      let (st1, effects1) := step st e in
      let (st2, effects2) := runFrom st1 later in
      (st2, effects1 ++ effects2)
  end.

Definition run (events : list Event) : State * list Effect :=
  runFrom initialState events.

(** How many times the effects settle the promise. *)
Fixpoint settlements (promise : nat) (effects : list Effect) : nat :=
  match effects with
  | Settle p _ :: rest =>
      (if Nat.eqb p promise then 1 else 0) + settlements promise rest
  | _ :: rest => settlements promise rest
  | [] => 0
  end.
(** The bookkeeping of requests that the hook keeps up: every pending entry
    has its timeout armed; an armed timeout belongs to a promise that was
    created and not settled yet, and to one id only; promises not created yet
    are not settled; and no promise is settled twice. *)
Definition consistent (st : State) (effects : list Effect) : Prop :=
  (forall key promise,
     Map_get key st.(pendingRequests) = Some promise ->
     In (promise, key) st.(timeouts))
  /\ (forall promise key,
        In (promise, key) st.(timeouts) ->
        promise < st.(nextPromise) /\ settlements promise effects = 0)
  /\ (forall promise key1 key2,
        In (promise, key1) st.(timeouts) -> In (promise, key2) st.(timeouts) ->
        key1 = key2)
  /\ (forall promise, st.(nextPromise) <= promise -> settlements promise effects = 0)
  /\ (forall promise, settlements promise effects <= 1).

(** Among the promises created before [bound], the effects settle none but
    by the rejection of its timeout. *)
Definition onlyTimeoutsBefore (bound : nat) (effects : list Effect) : Prop :=
  forall promise outcome,
    In (Settle promise outcome) effects -> promise < bound ->
    outcome = Rejected "Worker request timeout".

(** The promises of the pending entries were all created at [bound] or
    later. *)
Definition pendingSince (bound : nat) (st : State) : Prop :=
  bound <= st.(nextPromise)
  /\ forall key promise,
       Map_get key st.(pendingRequests) = Some promise -> bound <= promise.
End WithPayloads.
Arguments ResolvedReady {Generated} _ _.
Arguments ResolvedResult {Generated} _.
Arguments Rejected {Generated} _.
Arguments Settle {Generated Options} _ _.
Arguments NewWorker {Generated Options} _.
Arguments PostMessage {Generated Options} _ _ _.
Arguments Terminate {Generated Options} _.
Arguments answerRequest {Generated Options} _ _ _.
Arguments onmessage {Generated Options} _ _.
Arguments onerror {Generated Options} _.
Arguments initializeWorker {Generated Options} _.
Arguments sendWorkerMessage {Generated Options} _ _ _ _.
Arguments timeoutFires {Generated Options} _ _ _.
Arguments generateText {Generated Options} _ _ _ _.
Arguments retryLoading {Generated Options} _ _.
Arguments mount {Generated Options} _.
Arguments mountTimerFires {Generated Options} _ _.
Arguments progressTimerFires {Generated Options} _.
Arguments Mount {Generated Options}.
Arguments MountTimerFires {Generated Options} _.
Arguments Receive {Generated Options} _.
Arguments WorkerError {Generated Options}.
Arguments TimeoutFires {Generated Options} _ _.
Arguments ProgressTimerFires {Generated Options}.
Arguments GenerateText {Generated Options} _ _ _.
Arguments RetryLoading {Generated Options} _.
Arguments step {Generated Options} _ _.
Arguments runFrom {Generated Options} _ _.
Arguments run {Generated Options} _.
Arguments settlements {Generated Options} _ _.
Arguments consistent {Generated Options} _ _.
Arguments onlyTimeoutsBefore {Generated Options} _ _.
End UseAIModelWorker.

(** The hook after it was mounted and its 2 s delay has passed: the first
    INITIALIZE_MODEL request, with id [k1], is pending. *)
Module HookScenario.
Import WorkerProtocol UseAIModelWorker.
Definition firstRequest : State :=
  fst (run (Generated := string) (Options := unit) [Mount; MountTimerFires "k1"]).

(** The model was loaded and a GENERATE_TEXT request, with id [k2] and
    promise 1, is pending. *)
Definition generating : State :=
  fst (run (Generated := string) (Options := unit)
         [ Mount; MountTimerFires "k1";
           Receive {| id := "k1"; answer := MODEL_READY true "gemma" |};
           GenerateText "What is the slope?" None "k2" ]).

(** The answer to the request [k2]. *)
Definition lateAnswer : list (Event string unit) :=
  [ Receive {| id := "k2"; answer := TEXT_GENERATED "The slope is 0.600."%string |} ].
End HookScenario.

(** * Properties *)

(** ** Facts that hold in every arithmetic *)
Section Generic.
Context {num : Type} `{JsNumber num}.
Local Open Scope js_scope.

(** The one-pass accumulation of the specification computes the five
    [reduce] sums of the code. *)
Lemma accumulate_reduce (points : list (DataPoint num)) (acc : Spec.Sums num) :
  Spec.accumulate acc points =
  {| Spec.sumX := reduce (fun a p => a + p.(x)) acc.(Spec.sumX) points;
     Spec.sumY := reduce (fun a p => a + p.(y)) acc.(Spec.sumY) points;
     Spec.sumXY := reduce (fun a p => a + p.(x) * p.(y)) acc.(Spec.sumXY) points;
     Spec.sumXX := reduce (fun a p => a + p.(x) * p.(x)) acc.(Spec.sumXX) points;
     Spec.sumYY := reduce (fun a p => a + p.(y) * p.(y)) acc.(Spec.sumYY) points |}.
Proof.
  revert acc. induction points as [|p rest IH]; intros acc.
  - destruct acc; reflexivity.
  - simpl. rewrite IH. reflexivity.
Qed.

Lemma singlePass_reduce (points : list (DataPoint num)) :
  Spec.singlePass points =
  {| Spec.sumX := reduce (fun a p => a + p.(x)) js_zero points;
     Spec.sumY := reduce (fun a p => a + p.(y)) js_zero points;
     Spec.sumXY := reduce (fun a p => a + p.(x) * p.(y)) js_zero points;
     Spec.sumXX := reduce (fun a p => a + p.(x) * p.(x)) js_zero points;
     Spec.sumYY := reduce (fun a p => a + p.(y) * p.(y)) js_zero points |}.
Proof. unfold Spec.singlePass. rewrite accumulate_reduce. reflexivity. Qed.

(** [calculateStats] returns [null] exactly below two points. *)
Lemma calculateStats_null (lib : Regression.Linear num) (data : list (DataPoint num)) :
  RegressionCalculations.calculateStats lib data = None <-> length data < 2.
Proof.
  unfold RegressionCalculations.calculateStats.
  destruct (length data <? 2) eqn:E.
  - apply Nat.ltb_lt in E. split; auto.
  - apply Nat.ltb_ge in E. split; [discriminate | lia].
Qed.

(** From two points on, [calculateStats] returns its summary, whose fields
    are the formulas of the specification over the one-pass sums. *)
Lemma calculateStats_summary (lib : Regression.Linear num) (data : list (DataPoint num)) :
  2 <= length data ->
  exists s, RegressionCalculations.calculateStats lib data = Some s
    /\ RegressionCalculations.sxx s = Spec.SXX data
    /\ RegressionCalculations.scp s = Spec.SCP data
    /\ RegressionCalculations.slope s = Spec.slope data
    /\ RegressionCalculations.intercept s = Spec.intercept data
    /\ RegressionCalculations.meanX s = Spec.meanX data
    /\ RegressionCalculations.meanY s = Spec.meanY data
    /\ RegressionCalculations.n s = length data.
Proof.
  intros Hn. unfold RegressionCalculations.calculateStats.
  destruct (length data <? 2) eqn:E; [apply Nat.ltb_lt in E; lia|].
  eexists. split; [reflexivity|].
  unfold Spec.intercept, Spec.slope, Spec.SCP, Spec.SXX, Spec.meanX, Spec.meanY.
  rewrite singlePass_reduce. cbn. repeat split; reflexivity.
Qed.

(** The R^2 of the summary is the one the regression library reports for the
    points, in dataset order; nothing else of the summary comes from the
    library. *)
Lemma calculateStats_r2 (lib : Regression.Linear num) (data : list (DataPoint num))
  (s : RegressionCalculations.Stats num) :
  RegressionCalculations.calculateStats lib data = Some s ->
  RegressionCalculations.r2 s
  = Regression.r2 (lib (map (fun point => (point.(x), point.(y))) data)).
Proof.
  unfold RegressionCalculations.calculateStats.
  destruct (length data <? 2); [discriminate|].
  intros E. injection E as <-. reflexivity.
Qed.

(** The chat context computes the same one-pass sums, and guards its two
    divisions. *)
Lemma locals_formulas (data : list (DataPoint num)) :
  let v := GemmaChatbot.locals data in
  GemmaChatbot.sxx v = Spec.SXX data
  /\ GemmaChatbot.scp v = Spec.SCP data
  /\ GemmaChatbot.meanX v = Spec.meanX data
  /\ GemmaChatbot.meanY v = Spec.meanY data
  /\ GemmaChatbot.numerator v = Spec.correlationNumerator data
  /\ GemmaChatbot.denominator v = Spec.correlationDenominator data
  /\ GemmaChatbot.slope v =
       (if Spec.SXX data !== js_zero then Spec.SCP data / Spec.SXX data else js_zero)
  /\ GemmaChatbot.intercept v = Spec.meanY data - GemmaChatbot.slope v * Spec.meanX data
  /\ GemmaChatbot.correlation v =
       (if Spec.correlationDenominator data !== js_zero
        then Spec.correlationNumerator data / Spec.correlationDenominator data
        else js_zero).
Proof.
  unfold Spec.SCP, Spec.SXX, Spec.meanX, Spec.meanY,
    Spec.correlationNumerator, Spec.correlationDenominator.
  rewrite singlePass_reduce. cbn. repeat split; reflexivity.
Qed.

(** A handler that reads a NaN calls [onDataAdd] not at all. *)
Lemma handleSubmit_calls (parseFloat : string -> num) (st : DataInput.State) :
  snd (DataInput.handleSubmit parseFloat st) =
  if negb (isNaN (parseFloat st.(DataInput.x))) && negb (isNaN (parseFloat st.(DataInput.y)))
  then [Build_DataPoint (parseFloat st.(DataInput.x)) (parseFloat st.(DataInput.y))]
  else [].
Proof.
  unfold DataInput.handleSubmit.
  destruct (negb (isNaN (parseFloat st.(DataInput.x)))
            && negb (isNaN (parseFloat st.(DataInput.y)))); reflexivity.
Qed.

Lemma handleYKeyDown_calls (parseFloat : string -> num) (key : string)
  (st : DataInput.State) :
  snd (DataInput.handleYKeyDown parseFloat key st) = []
  \/ snd (DataInput.handleYKeyDown parseFloat key st)
     = snd (DataInput.handleSubmit parseFloat st).
Proof.
  unfold DataInput.handleYKeyDown, DataInput.handleSubmit.
  destruct (String.eqb key "Enter"); [right; reflexivity | left; reflexivity].
Qed.

Lemma handleSubmit_wellFormed (parseFloat : string -> num) (st : DataInput.State) :
  Forall wellFormed (snd (DataInput.handleSubmit parseFloat st)).
Proof.
  rewrite handleSubmit_calls.
  destruct (isNaN (parseFloat st.(DataInput.x))) eqn:Ex;
    destruct (isNaN (parseFloat st.(DataInput.y))) eqn:Ey; simpl; constructor;
    [split; assumption | constructor].
Qed.

Lemma handleYKeyDown_wellFormed (parseFloat : string -> num) (key : string)
  (st : DataInput.State) :
  Forall wellFormed (snd (DataInput.handleYKeyDown parseFloat key st)).
Proof.
  destruct (handleYKeyDown_calls parseFloat key st) as [E|E]; rewrite E.
  - constructor.
  - apply handleSubmit_wellFormed.
Qed.

Lemma filter_index_incl (i index : nat) (data : list (DataPoint num)) :
  incl (App.filter_index i index data) data.
Proof.
  revert i. induction data as [|p rest IH]; intros i; simpl.
  - apply incl_refl.
  - destruct (Nat.eqb i index).
    + apply incl_tl, IH.
    + apply incl_cons; [left; reflexivity | apply incl_tl, IH].
Qed.

Lemma deliver_wellFormed (st : Session.State) (r : DataInput.State * list (DataPoint num)) :
  Forall wellFormed st.(Session.dataPoints) ->
  Forall wellFormed (snd r) ->
  Forall wellFormed (Session.deliver st r).(Session.dataPoints).
Proof.
  destruct r as [f calls]. simpl. revert st.
  generalize (Session.dataPoints (num := num)).
  intros get st. generalize (get st). clear get st.
  induction calls as [|c calls IH]; intros data Hd Hc; simpl.
  - exact Hd.
  - inversion Hc; subst. apply IH; [|assumption].
    unfold App.handleDataAdd. apply Forall_app. split; [assumption|].
    constructor; [assumption | constructor].
Qed.

(** Every step of the page keeps NaN out of the dataset. *)
Lemma step_wellFormed (parseFloat : string -> num) (st : Session.State)
  (e : Session.Event) :
  Forall wellFormed st.(Session.dataPoints) ->
  Forall wellFormed (Session.step parseFloat st e).(Session.dataPoints).
Proof.
  intros Hst. destruct e; simpl; try assumption.
  - apply deliver_wellFormed; [assumption | apply handleSubmit_wellFormed].
  - apply deliver_wellFormed; [assumption | apply handleYKeyDown_wellFormed].
  - constructor.
  - unfold App.handleDeletePoint.
    rewrite Forall_forall in *. intros p Hp. apply Hst.
    eapply filter_index_incl; eassumption.
Qed.

Lemma run_wellFormed (parseFloat : string -> num) (events : list Session.Event) :
  Forall wellFormed (Session.run parseFloat events).(Session.dataPoints).
Proof.
  unfold Session.run.
  assert (Hinit : Forall wellFormed
                    (Session.initialState (num := num)).(Session.dataPoints))
    by constructor.
  revert Hinit. generalize (Session.initialState (num := num)).
  induction events as [|e events IH]; intros st Hst; simpl.
  - exact Hst.
  - apply IH. apply step_wellFormed. exact Hst.
Qed.
Lemma string_append_assoc (a b c : string) :
  ((a ++ b) ++ c = a ++ (b ++ c))%string.
Proof. induction a as [|ch a IH]; simpl; [reflexivity | rewrite IH; reflexivity]. Qed.

(** An empty dataset gets the fixed sentence; any other gets the template,
    which ends with the correlation. *)
Lemma generateDataContext_shape (toFixed : num -> nat -> string)
  (data : list (DataPoint num)) :
  (data = [] ->
   GemmaChatbot.generateDataContext toFixed data
   = "No data points have been entered yet."%string)
  /\ (1 <= length data ->
      exists before,
        GemmaChatbot.generateDataContext toFixed data
        = (before ++ ". Correlation coefficient: "
             ++ toFixed (GemmaChatbot.correlation (GemmaChatbot.locals data)) 3
             ++ ".")%string).
Proof.
  split.
  - intros ->. reflexivity.
  - intros Hn. unfold GemmaChatbot.generateDataContext.
    destruct (length data =? 0) eqn:E; [apply Nat.eqb_eq in E; lia|].
    set (v := GemmaChatbot.locals data).
    exists ("Current dataset: " ++ decimal_of_nat (GemmaChatbot.n v)
              ++ " data points. Mean X: " ++ toFixed (GemmaChatbot.meanX v) 2
              ++ ", Mean Y: " ++ toFixed (GemmaChatbot.meanY v) 2
              ++ ". Linear regression: y = " ++ toFixed (GemmaChatbot.slope v) 3
              ++ "x + " ++ toFixed (GemmaChatbot.intercept v) 3)%string.
    repeat rewrite string_append_assoc. reflexivity.
Qed.

(** C5.  For every dataset of at least two points whose SXX is not zero, the
    slope that [calculateStats] returns and the slope of the chat context
    equal (sumXY - sumX*sumY/n) / (sumXX - sumX*sumX/n), and the intercept
    equals meanY - slope*meanX, all sums being accumulated in a single pass
    from the first point to the last. *)
Theorem slope_intercept_formulas (lib : Regression.Linear num)
  (data : list (DataPoint num)) :
  2 <= length data ->
  (Spec.SXX data !== js_zero) = true ->
  (exists s, RegressionCalculations.calculateStats lib data = Some s
     /\ RegressionCalculations.slope s = Spec.slope data
     /\ RegressionCalculations.intercept s = Spec.intercept data)
  /\ GemmaChatbot.slope (GemmaChatbot.locals data) = Spec.slope data
  /\ GemmaChatbot.intercept (GemmaChatbot.locals data) = Spec.intercept data.
Proof.
  intros Hn Hsxx. split.
  - destruct (calculateStats_summary lib data Hn)
      as (s & Hs & _ & _ & Hslope & Hint & _).
    exists s. auto.
  - destruct (locals_formulas data) as (_ & _ & _ & _ & _ & _ & Hslope & Hint & _).
    rewrite Hsxx in Hslope.
    split; [exact Hslope|]. rewrite Hint, Hslope. reflexivity.
Qed.

(** C6, as the code has it.  For every dataset of at least one point, the
    correlation of the chat context is numerator / denominator, with
    numerator n*sumXY - sumX*sumY and denominator
    sqrt((n*sumXX - sumX*sumX) * (n*sumYY - sumY*sumY)), when the denominator
    is not zero, and is the number 0 when the denominator is zero; it is the
    last number of the returned text. *)
Theorem correlation_formula_or_zero (toFixed : num -> nat -> string)
  (data : list (DataPoint num)) :
  1 <= length data ->
  ((Spec.correlationDenominator data !== js_zero) = true ->
     GemmaChatbot.correlation (GemmaChatbot.locals data)
     = Spec.correlationNumerator data / Spec.correlationDenominator data)
  /\ ((Spec.correlationDenominator data !== js_zero) = false ->
      GemmaChatbot.correlation (GemmaChatbot.locals data) = js_zero)
  /\ (exists before,
        GemmaChatbot.generateDataContext toFixed data
        = (before ++ ". Correlation coefficient: "
             ++ toFixed (GemmaChatbot.correlation (GemmaChatbot.locals data)) 3
             ++ ".")%string).
Proof.
  intros Hn.
  destruct (locals_formulas data) as (_ & _ & _ & _ & _ & _ & _ & _ & Hcorr).
  repeat split.
  - intros Hd. rewrite Hd in Hcorr. exact Hcorr.
  - intros Hd. rewrite Hd in Hcorr. exact Hcorr.
  - apply generateDataContext_shape. exact Hn.
Qed.

(** C9.  When [parseFloat] of the x field or of the y field is NaN, neither
    [handleSubmit] nor [handleYKeyDown] calls [onDataAdd], and the dataset
    stays as it was; and whatever the user does, no point with a NaN
    coordinate is ever in the dataset. *)
Theorem NaN_input_is_not_added (parseFloat : string -> num) (st : DataInput.State) :
  isNaN (parseFloat st.(DataInput.x)) = true
  \/ isNaN (parseFloat st.(DataInput.y)) = true ->
  snd (DataInput.handleSubmit parseFloat st) = []
  /\ (forall key, snd (DataInput.handleYKeyDown parseFloat key st) = [])
  /\ (forall data key,
        let page := {| Session.dataPoints := data; Session.fields := st |} in
        (Session.step parseFloat page Session.Submit).(Session.dataPoints) = data
        /\ (Session.step parseFloat page (Session.YKeyDown key)).(Session.dataPoints)
           = data)
  /\ (forall events,
        Forall wellFormed (Session.run parseFloat events).(Session.dataPoints)).
Proof.
  intros Hnan.
  assert (Hsub : snd (DataInput.handleSubmit parseFloat st) = []).
  { rewrite handleSubmit_calls.
    destruct Hnan as [E|E]; rewrite E; simpl; [reflexivity|].
    rewrite andb_false_r. reflexivity. }
  assert (Hkey : forall key, snd (DataInput.handleYKeyDown parseFloat key st) = []).
  { intros key. destruct (handleYKeyDown_calls parseFloat key st) as [E|E];
      rewrite E; [reflexivity | exact Hsub]. }
  repeat split.
  - exact Hsub.
  - exact Hkey.
  - simpl. unfold Session.deliver. simpl. rewrite Hsub. reflexivity.
  - simpl. unfold Session.deliver. simpl. rewrite Hkey. reflexivity.
  - intros events. apply run_wellFormed.
Qed.
End Generic.

(** ** Facts of the binary64 arithmetic the program runs on *)

(** C1: the code at two points of equal x.  At (2,1), (2,5) SXX is 0;
    [calculateStats] returns a summary, not a sentinel, and divides 0 by 0:
    its slope and intercept are NaN, the equation box shows
    [y = NaNx + NaN] and the table footer a NaN sum of squared residuals.
    The chat context computes the same slope behind the guard
    [sxx !== 0 ? scp / sxx : 0] and reports the slope 0. *)
Theorem equal_x_slope_is_NaN (big : float -> string) :
  App.footerSXX Fixture.equalX = 0%float
  /\ (forall lib : Regression.Linear float,
        exists s, RegressionCalculations.calculateStats lib Fixture.equalX = Some s
          /\ RegressionCalculations.sxx s = 0%float
          /\ isNaN (RegressionCalculations.slope s) = true
          /\ isNaN (RegressionCalculations.intercept s) = true
          /\ Rendered.equation (NumberPrototype.toFixed big) (Some s)
             = "y = NaNx + NaN"%string)
  /\ Rendered.footer (NumberPrototype.toFixed big) Fixture.equalX
     = ["SXX = 0.0000"; "SCP = 0.0000"; "SS_{res} = NaN"; "SS_{tot} = 8.0000"]%string
  /\ GemmaChatbot.slope (GemmaChatbot.locals Fixture.equalX) = 0%float
  /\ GemmaChatbot.generateDataContext (NumberPrototype.toFixed big) Fixture.equalX
     = ("Current dataset: 2 data points. Mean X: 2.00, Mean Y: 3.00. "
        ++ "Linear regression: y = 0.000x + 3.000. Correlation coefficient: 0.000.")%string.
Proof.
  split; [vm_compute; reflexivity|]. split.
  - intros lib. eexists. split; [reflexivity|]. repeat split; vm_compute; reflexivity.
  - repeat split; vm_compute; reflexivity.
Qed.

(** C2, as stated, fails.  At the known fixture SCP is 6, not 9; the slope
    shows as 0.6000, not 0.9000, the intercept as 2.2000, not 1.3000, and the
    predicted column is not 2.2, 3.1, 4.0, 4.9, 5.8. *)
Lemma known_fixture_not_as_specified :
  (App.footerSCP Fixture.known !== 9%float)%js = true
  /\ forall (big : float -> string) (lib : Regression.Linear float),
      exists s, RegressionCalculations.calculateStats lib Fixture.known = Some s
        /\ (RegressionCalculations.scp s !== 9%float)%js = true
        /\ NumberPrototype.toFixed big (RegressionCalculations.slope s) 4
           <> "0.9000"%string
        /\ NumberPrototype.toFixed big (RegressionCalculations.intercept s) 4
           <> "1.3000"%string
        /\ map (fun r => NumberPrototype.toFixed big (App.yPredicted r) 4)
             (App.tableBody Fixture.known)
           <> ["2.2000"; "3.1000"; "4.0000"; "4.9000"; "5.8000"]%string.
Proof.
  split; [vm_compute; reflexivity|]. intros big lib.
  eexists. split; [reflexivity|].
  repeat split; vm_compute; solve [reflexivity | discriminate].
Qed.

(** C2, as the code has it.  At the known fixture: meanX = 3, meanY = 4,
    SXX = 10, SCP = 6; to four decimals slope = 0.6000 and
    intercept = 2.2000, the predicted values are 2.8, 3.4, 4.0, 4.6, 5.2,
    SSres = 2.4000, SStot = 6.0000 and 1 - SSres/SStot = 0.6000. *)
Theorem known_fixture_values (big : float -> string) (lib : Regression.Linear float) :
  (exists s, RegressionCalculations.calculateStats lib Fixture.known = Some s
     /\ RegressionCalculations.meanX s = 3%float
     /\ RegressionCalculations.meanY s = 4%float
     /\ RegressionCalculations.sxx s = 10%float
     /\ RegressionCalculations.scp s = 6%float
     /\ Rendered.equation (NumberPrototype.toFixed big) (Some s)
        = "y = 0.6000x + 2.2000"%string)
  /\ map (fun r => NumberPrototype.toFixed big (App.yPredicted r) 4)
       (App.tableBody Fixture.known)
     = ["2.8000"; "3.4000"; "4.0000"; "4.6000"; "5.2000"]%string
  /\ Rendered.footer (NumberPrototype.toFixed big) Fixture.known
     = ["SXX = 10.0000"; "SCP = 6.0000"; "SS_{res} = 2.4000"; "SS_{tot} = 6.0000"]%string
  /\ NumberPrototype.toFixed big
       (Spec.rSquared (App.footerSSres Fixture.known) (App.footerSStot Fixture.known)) 4
     = "0.6000"%string.
Proof.
  split.
  - eexists. split; [reflexivity|]. repeat split; vm_compute; reflexivity.
  - repeat split; vm_compute; reflexivity.
Qed.

(** C4: the code at one point.  [calculateStats] returns [null], and the chat
    context is guarded; but the table is shown, and its row divides 0 by 0:
    the predicted value, the residual and its square are NaN, and so is the
    footer sum of squared residuals. *)
Theorem single_point_table_shows_NaN (big : float -> string) :
  (forall lib : Regression.Linear float,
     RegressionCalculations.calculateStats lib Fixture.single = None)
  /\ App.showsTable Fixture.single = true
  /\ map (fun r => isNaN (App.yPredicted r)) (App.tableBody Fixture.single) = [true]
  /\ Rendered.table (NumberPrototype.toFixed big) Fixture.single
     = [["1.0000"; "1.0000"; "NaN"; "0.0000"; "0.0000"; "NaN"; "0.0000"; "0.0000";
         "NaN"; "0.0000"]]%string
  /\ Rendered.footer (NumberPrototype.toFixed big) Fixture.single
     = ["SXX = 0.0000"; "SCP = 0.0000"; "SS_{res} = NaN"; "SS_{tot} = 0.0000"]%string
  /\ GemmaChatbot.generateDataContext (NumberPrototype.toFixed big) Fixture.single
     = ("Current dataset: 1 data points. Mean X: 1.00, Mean Y: 1.00. "
        ++ "Linear regression: y = 0.000x + 1.000. Correlation coefficient: 0.000.")%string.
Proof.
  split; [intros lib; reflexivity|]. repeat split; vm_compute; reflexivity.
Qed.

(** The formulas at the known fixture, in binary64. *)
Lemma slope_intercept_formulas_witness :
  2 <= length Fixture.known
  /\ (Spec.SXX Fixture.known !== js_zero)%js = true
  /\ forall lib : Regression.Linear float,
      (exists s, RegressionCalculations.calculateStats lib Fixture.known = Some s
         /\ RegressionCalculations.slope s = Spec.slope Fixture.known
         /\ RegressionCalculations.intercept s = Spec.intercept Fixture.known)
      /\ GemmaChatbot.slope (GemmaChatbot.locals Fixture.known) = Spec.slope Fixture.known
      /\ GemmaChatbot.intercept (GemmaChatbot.locals Fixture.known)
         = Spec.intercept Fixture.known.
Proof.
  split; [simpl; lia|]. split; [vm_compute; reflexivity|]. intros lib.
  apply (slope_intercept_formulas lib Fixture.known);
    [simpl; lia | vm_compute; reflexivity].
Defined.

(** C6, as stated, fails.  At the single point (1,1) the denominator is 0 and
    the correlation is the number 0, shown as 0.000: the same text as for the
    points (0,0), (1,1), (2,0), whose denominator is not 0 and whose
    correlation is 0.  Nothing marks the first as undefined. *)
Lemma zero_denominator_reported_as_zero :
  (Spec.correlationDenominator Fixture.single !== js_zero)%js = false
  /\ GemmaChatbot.correlation (GemmaChatbot.locals Fixture.single) = 0%float
  /\ isNaN (GemmaChatbot.correlation (GemmaChatbot.locals Fixture.single)) = false
  /\ (Spec.correlationDenominator Fixture.tent !== js_zero)%js = true
  /\ GemmaChatbot.correlation (GemmaChatbot.locals Fixture.tent)
     = GemmaChatbot.correlation (GemmaChatbot.locals Fixture.single)
  /\ forall big : float -> string,
      GemmaChatbot.generateDataContext (NumberPrototype.toFixed big) Fixture.single
      = ("Current dataset: 1 data points. Mean X: 1.00, Mean Y: 1.00. "
         ++ "Linear regression: y = 0.000x + 1.000. Correlation coefficient: 0.000.")%string.
Proof.
  repeat split; vm_compute; reflexivity.
Qed.

(** The correlation at the known fixture, in binary64. *)
Lemma correlation_formula_or_zero_witness :
  1 <= length Fixture.known
  /\ forall big : float -> string,
      ((Spec.correlationDenominator Fixture.known !== js_zero)%js = true ->
         GemmaChatbot.correlation (GemmaChatbot.locals Fixture.known)
         = (Spec.correlationNumerator Fixture.known
            / Spec.correlationDenominator Fixture.known)%js)
      /\ ((Spec.correlationDenominator Fixture.known !== js_zero)%js = false ->
          GemmaChatbot.correlation (GemmaChatbot.locals Fixture.known) = js_zero)
      /\ (exists before,
            GemmaChatbot.generateDataContext (NumberPrototype.toFixed big) Fixture.known
            = (before ++ ". Correlation coefficient: "
                 ++ NumberPrototype.toFixed big
                      (GemmaChatbot.correlation (GemmaChatbot.locals Fixture.known)) 3
                 ++ ".")%string).
Proof.
  split; [simpl; lia|]. intros big.
  apply (correlation_formula_or_zero (NumberPrototype.toFixed big) Fixture.known).
  simpl; lia.
Defined.

(** The form with an empty y field: [parseFloat] of it is NaN, and nothing
    is added. *)
Lemma NaN_input_is_not_added_witness :
  (isNaN (PlainLiteral.parseFloat Fixture.halfFilled.(DataInput.x)) = true
   \/ isNaN (PlainLiteral.parseFloat Fixture.halfFilled.(DataInput.y)) = true)
  /\ snd (DataInput.handleSubmit PlainLiteral.parseFloat Fixture.halfFilled) = []
  /\ (forall key,
        snd (DataInput.handleYKeyDown PlainLiteral.parseFloat key Fixture.halfFilled) = []).
Proof.
  assert (Hnan : isNaN (PlainLiteral.parseFloat Fixture.halfFilled.(DataInput.x)) = true
                 \/ isNaN (PlainLiteral.parseFloat Fixture.halfFilled.(DataInput.y)) = true)
    by (right; vm_compute; reflexivity).
  split; [exact Hnan|].
  destruct (NaN_input_is_not_added PlainLiteral.parseFloat Fixture.halfFilled Hnan)
    as (Hs & Hk & _).
  split; [exact Hs | exact Hk].
Defined.

(** C10: the code at three points entered with x = 1.3 and y = 1, 2, 3.  All
    coordinates are finite; n*sumXX - sumX*sumX rounds to a negative number,
    the square root of the negative product is NaN, NaN passes the test
    [denominator !== 0], and the returned text ends with NaN. *)
Theorem context_correlation_NaN (big : float -> string) :
  Forall (fun p => isFinite p.(x) = true /\ isFinite p.(y) = true) Fixture.equalTenths
  /\ (let v := GemmaChatbot.locals Fixture.equalTenths in
      PrimFloat.ltb (#3 * GemmaChatbot.sumXX v
                     - GemmaChatbot.sumX v * GemmaChatbot.sumX v)%js 0%float = true
      /\ PrimFloat.ltb 0%float (#3 * GemmaChatbot.sumYY v
                                - GemmaChatbot.sumY v * GemmaChatbot.sumY v)%js = true
      /\ isNaN (GemmaChatbot.denominator v) = true
      /\ (GemmaChatbot.denominator v !== js_zero)%js = true
      /\ isNaN (GemmaChatbot.correlation v) = true)
  /\ GemmaChatbot.generateDataContext (NumberPrototype.toFixed big) Fixture.equalTenths
     = ("Current dataset: 3 data points. Mean X: 1.30, Mean Y: 2.00. "
        ++ "Linear regression: y = 0.000x + 2.000. Correlation coefficient: NaN.")%string.
Proof.
  split.
  - repeat constructor; vm_compute; reflexivity.
  - repeat split; vm_compute; reflexivity.
Qed.

(** The table footer sums squared residuals about the fitted line, and
    squared deviations about the mean: in every arithmetic. *)
Lemma footerSSres_squaredError {num : Type} `{JsNumber num}
  (data : list (DataPoint num)) :
  App.footerSSres data = Spec.squaredError (Spec.slope data) (Spec.intercept data) data.
Proof.
  unfold App.footerSSres, Spec.squaredError, Spec.intercept, Spec.slope,
    Spec.SCP, Spec.SXX, Spec.meanX, Spec.meanY.
  rewrite singlePass_reduce. reflexivity.
Qed.

Lemma footerSStot_meanY {num : Type} `{JsNumber num} (data : list (DataPoint num)) :
  App.footerSStot data
  = reduce (fun sum p =>
              (sum + (p.(y) - Spec.meanY data) * (p.(y) - Spec.meanY data))%js)
      js_zero data.
Proof.
  unfold App.footerSStot, Spec.meanY. rewrite singlePass_reduce. reflexivity.
Qed.

(** In binary64 the sums round differently in another order: at the known
    fixture, entered last point first, the footer sum of squared residuals
    differs in its last bits, and the page shows the same four-decimal
    texts. *)
Lemma known_fixture_reversed_texts (big : float -> string)
  (lib : Regression.Linear float) :
  (App.footerSSres Fixture.knownReversed !== App.footerSSres Fixture.known)%js = true
  /\ Rendered.equation (NumberPrototype.toFixed big)
       (RegressionCalculations.calculateStats lib Fixture.knownReversed)
     = Rendered.equation (NumberPrototype.toFixed big)
         (RegressionCalculations.calculateStats lib Fixture.known)
  /\ Rendered.footer (NumberPrototype.toFixed big) Fixture.knownReversed
     = Rendered.footer (NumberPrototype.toFixed big) Fixture.known.
Proof. repeat split; vm_compute; reflexivity. Qed.


(** C7: the code at a dataset and at its reversal.  With the y values of
    the known fixture at x = 10000.1, ..., 10000.5 the equation box shows
    the intercept -59997.8215 when the points are entered in this order and
    -59997.7857 when they are entered last point first: [calculateStats]
    takes sxx and scp as [sumXX - sumX*sumX/n] and [sumXY - sumX*sumY/n],
    differences of large sums whose rounding depends on the order.  At
    three readings with millisecond timestamps the same happens without
    bound: sxx is -1073741824 in one order and 0 in the other, and the
    equation box shows [y = -0.0000x + 1583250.3778] and
    [y = Infinityx + -Infinity].  The table footer of the same page takes
    SXX and SCP as sums of products of deviations from the means; those
    are the same in both orders, and the line they give, with slope
    SCP / SXX and intercept meanY - slope * meanX, shows as
    [y = 6.0000x + -59997.8000] in both. *)
Theorem reversed_dataset_changes_the_line (big : float -> string)
  (lib : Regression.Linear float) :
  Permutation Fixture.readings Fixture.readingsReversed
  /\ Permutation Fixture.timestamps Fixture.timestampsReversed
  /\ (App.footerSXX Fixture.readings !== js_zero)%js = true
  /\ (App.footerSXX Fixture.timestamps !== js_zero)%js = true
  /\ Rendered.equation (NumberPrototype.toFixed big)
       (RegressionCalculations.calculateStats lib Fixture.readings)
     = "y = 6.0000x + -59997.8215"%string
  /\ Rendered.equation (NumberPrototype.toFixed big)
       (RegressionCalculations.calculateStats lib Fixture.readingsReversed)
     = "y = 6.0000x + -59997.7857"%string
  /\ Rendered.equation (NumberPrototype.toFixed big)
       (RegressionCalculations.calculateStats lib Fixture.timestamps)
     = "y = -0.0000x + 1583250.3778"%string
  /\ Rendered.equation (NumberPrototype.toFixed big)
       (RegressionCalculations.calculateStats lib Fixture.timestampsReversed)
     = "y = Infinityx + -Infinity"%string
  /\ (exists s s',
        RegressionCalculations.calculateStats lib Fixture.timestamps = Some s
        /\ RegressionCalculations.calculateStats lib Fixture.timestampsReversed = Some s'
        /\ RegressionCalculations.sxx s = (-1073741824)%float
        /\ RegressionCalculations.sxx s' = 0%float
        /\ isFinite (RegressionCalculations.slope s) = true
        /\ RegressionCalculations.slope s' = infinity)
  /\ App.footerSXX Fixture.readingsReversed = App.footerSXX Fixture.readings
  /\ App.footerSCP Fixture.readingsReversed = App.footerSCP Fixture.readings
  /\ App.footerSXX Fixture.timestamps = 2000000%float
  /\ App.footerSXX Fixture.timestampsReversed = 2000000%float
  /\ App.footerSCP Fixture.timestamps = 1000%float
  /\ App.footerSCP Fixture.timestampsReversed = 1000%float
  /\ (let line := fun data : list (DataPoint float) =>
        let a := (App.footerSCP data / App.footerSXX data)%js in
        let b := (Spec.meanY data - a * Spec.meanX data)%js in
        (NumberPrototype.toFixed big a 4, NumberPrototype.toFixed big b 4) in
      line Fixture.readings = ("6.0000", "-59997.8000")%string
      /\ line Fixture.readingsReversed = ("6.0000", "-59997.8000")%string).
Proof.
  split; [apply Permutation_rev|]. split; [apply Permutation_rev|].
  repeat (split; [vm_compute; reflexivity|]).
  split.
  - eexists. eexists. split; [reflexivity|]. split; [reflexivity|].
    repeat split; vm_compute; reflexivity.
  - repeat split; vm_compute; reflexivity.
Qed.

(** C8: the code at five days written as yyyymmdd, with the y values of the
    known fixture.  SXX is 10 and SCP is 6, as the table footer shows, but
    [calculateStats] gets sxx = 10.25 from [sumXX - sumX*sumX/n] and fits
    [y = 0.5854x + -11842007.5122]; its sum of squared residuals, shown
    under the table as 2.4021, is greater than that of the line with slope
    SCP / SXX of the footer sums, which is 2.4000 to four decimals. *)
Theorem fitted_line_is_not_least_squares (big : float -> string)
  (lib : Regression.Linear float) :
  2 <= length Fixture.dates
  /\ App.footerSXX Fixture.dates = 10%float
  /\ App.footerSCP Fixture.dates = 6%float
  /\ (exists s,
        RegressionCalculations.calculateStats lib Fixture.dates = Some s
        /\ RegressionCalculations.sxx s = 10.25%float
        /\ RegressionCalculations.scp s = 6%float
        /\ Rendered.equation (NumberPrototype.toFixed big) (Some s)
           = "y = 0.5854x + -11842007.5122"%string
        /\ App.footerSSres Fixture.dates
           = Spec.squaredError (RegressionCalculations.slope s)
               (RegressionCalculations.intercept s) Fixture.dates)
  /\ Rendered.footer (NumberPrototype.toFixed big) Fixture.dates
     = ["SXX = 10.0000"; "SCP = 6.0000"; "SS_{res} = 2.4021"; "SS_{tot} = 6.0000"]%string
  /\ (let a := (App.footerSCP Fixture.dates / App.footerSXX Fixture.dates)%js in
      let b := (Spec.meanY Fixture.dates - a * Spec.meanX Fixture.dates)%js in
      PrimFloat.ltb (Spec.squaredError a b Fixture.dates)
        (App.footerSSres Fixture.dates) = true
      /\ NumberPrototype.toFixed big (Spec.squaredError a b Fixture.dates) 4
         = "2.4000"%string).
Proof.
  split; [simpl; lia|]. split; [vm_compute; reflexivity|].
  split; [vm_compute; reflexivity|]. split.
  - eexists. split; [reflexivity|]. repeat split; vm_compute; reflexivity.
  - repeat split; vm_compute; reflexivity.
Qed.

(** * Further properties *)

(** ** The dataset handlers of App.tsx *)
Section Handlers.
Context {num : Type} `{JsNumber num}.

Lemma filter_index_from (i index : nat) (data : list (DataPoint num)) :
  i <= index ->
  App.filter_index i index data
  = firstn (index - i) data ++ skipn (S (index - i)) data.
Proof.
  revert i. induction data as [|p rest IH]; intros i Hi; simpl.
  - destruct (index - i); reflexivity.
  - destruct (Nat.eqb i index) eqn:E.
    + apply Nat.eqb_eq in E. subst i. rewrite Nat.sub_diag. simpl.
      clear IH Hi. revert index.
      assert (G : forall k j, j < k -> App.filter_index k j rest = rest).
      { induction rest as [|q rest' IH']; intros k j Hkj; simpl; [reflexivity|].
        destruct (Nat.eqb k j) eqn:E'; [apply Nat.eqb_eq in E'; lia|].
        rewrite IH' by lia. reflexivity. }
      intros index. apply G. lia.
    + apply Nat.eqb_neq in E.
      replace (index - i) with (S (index - S i)) by lia. simpl.
      rewrite IH by lia. reflexivity.
Qed.

(** [handleDeletePoint] removes the point at the given position and nothing
    else: the points before it and the points after it stay, in order.  A
    position past the end removes nothing. *)
Theorem handleDeletePoint_removes_position (data : list (DataPoint num)) (index : nat) :
  App.handleDeletePoint data index = firstn index data ++ skipn (S index) data
  /\ (index < length data ->
      length (App.handleDeletePoint data index) = length data - 1)
  /\ (length data <= index -> App.handleDeletePoint data index = data).
Proof.
  assert (E : App.handleDeletePoint data index
              = firstn index data ++ skipn (S index) data).
  { unfold App.handleDeletePoint. rewrite filter_index_from by lia.
    rewrite Nat.sub_0_r. reflexivity. }
  split; [exact E|]. split.
  - intros Hlt. rewrite E, length_app, length_firstn, length_skipn. lia.
  - intros Hge. rewrite E, firstn_all2 by exact Hge.
    rewrite skipn_all2 by lia. apply app_nil_r.
Qed.

(** Deleting the row just added gives the dataset back, and deleting an
    earlier row commutes with adding a point. *)
Theorem add_then_delete (data : list (DataPoint num)) (point : DataPoint num) :
  App.handleDeletePoint (App.handleDataAdd data point) (length data) = data
  /\ (forall index, index < length data ->
        App.handleDeletePoint (App.handleDataAdd data point) index
        = App.handleDataAdd (App.handleDeletePoint data index) point).
Proof.
  unfold App.handleDataAdd. split.
  - destruct (handleDeletePoint_removes_position (data ++ [point]) (length data))
      as (E & _).
    rewrite E, firstn_app, skipn_app, Nat.sub_diag, firstn_all.
    rewrite (skipn_all2 data) by lia.
    replace (S (length data) - length data) with 1 by lia. simpl.
    rewrite !app_nil_r. reflexivity.
  - intros index Hlt.
    destruct (handleDeletePoint_removes_position (data ++ [point]) index) as (E & _).
    destruct (handleDeletePoint_removes_position data index) as (E' & _).
    rewrite E, E', firstn_app, skipn_app.
    replace (index - length data) with 0 by lia.
    replace (S index - length data) with 0 by lia.
    change (firstn 0 [point]) with (@nil (DataPoint num)).
    change (skipn 0 [point]) with [point].
    rewrite app_nil_r, app_assoc. reflexivity.
Qed.

(** A submission whose two fields parse to numbers appends exactly that
    point to the end of the dataset and empties both fields; the Enter key
    in the y field does the same, and any other key does nothing. *)
Theorem valid_submission_appends (parseFloat : string -> num)
  (st : DataInput.State) (data : list (DataPoint num)) :
  isNaN (parseFloat st.(DataInput.x)) = false ->
  isNaN (parseFloat st.(DataInput.y)) = false ->
  let page := {| Session.dataPoints := data; Session.fields := st |} in
  let added := {| Session.dataPoints :=
                    data ++ [Build_DataPoint (parseFloat st.(DataInput.x))
                               (parseFloat st.(DataInput.y))];
                  Session.fields := DataInput.initialState |} in
  Session.step parseFloat page Session.Submit = added
  /\ Session.step parseFloat page (Session.YKeyDown "Enter") = added
  /\ (forall key, String.eqb key "Enter" = false ->
        Session.step parseFloat page (Session.YKeyDown key) = page).
Proof.
  intros Hx Hy page added. unfold page, added.
  simpl. unfold Session.deliver, DataInput.handleYKeyDown, DataInput.handleSubmit.
  simpl. rewrite Hx, Hy. simpl. repeat split.
  intros key Hkey. rewrite Hkey. reflexivity.
Qed.
End Handlers.

(** The form with 1.5 and 2 typed: the point (1.5, 2) joins the fixture. *)
Lemma valid_submission_appends_witness :
  isNaN (PlainLiteral.parseFloat "1.5") = false
  /\ isNaN (PlainLiteral.parseFloat "2") = false
  /\ Session.step PlainLiteral.parseFloat
       {| Session.dataPoints := Fixture.single;
          Session.fields := {| DataInput.x := "1.5"; DataInput.y := "2" |} |}
       Session.Submit
     = {| Session.dataPoints := Fixture.single ++ [Fixture.point "1.5" "2"];
          Session.fields := DataInput.initialState |}.
Proof.
  split; [vm_compute; reflexivity|]. split; [vm_compute; reflexivity|].
  apply (valid_submission_appends PlainLiteral.parseFloat
           {| DataInput.x := "1.5"; DataInput.y := "2" |} Fixture.single);
    vm_compute; reflexivity.
Defined.

(** ** The table, its footer and the calculations panel, in every arithmetic *)
Section Consistency.
Context {num : Type} `{JsNumber num}.
Local Open Scope js_scope.

Lemma reduce_map {A B C : Type} (f : C -> B -> C) (g : A -> B) (l : list A) (a : C) :
  reduce f a (map g l) = reduce (fun acc v => f acc (g v)) a l.
Proof.
  unfold reduce. revert a. induction l as [|v l IH]; intros a; simpl;
    [reflexivity | apply IH].
Qed.

(** Each sum of the table footer is the sum of the cells of the column
    above it, added in row order, before any rounding for display. *)
Theorem footer_sums_columns (data : list (DataPoint num)) :
  App.footerSXX data = columnSum (@App.xDiff_sq num) (App.tableBody data)
  /\ App.footerSCP data = columnSum (@App.xDiff_yDiff num) (App.tableBody data)
  /\ App.footerSSres data = columnSum (@App.residual_sq num) (App.tableBody data)
  /\ App.footerSStot data = columnSum (@App.yDiff_sq num) (App.tableBody data).
Proof.
  unfold columnSum, App.tableBody. rewrite !reduce_map. repeat split.
Qed.

(** A summary that [calculateStats] returns is the one for at least two
    points. *)
Lemma calculateStats_Some (lib : Regression.Linear num) (data : list (DataPoint num))
  (s : RegressionCalculations.Stats num) :
  RegressionCalculations.calculateStats lib data = Some s ->
  2 <= length data
  /\ RegressionCalculations.sxx s = Spec.SXX data
  /\ RegressionCalculations.scp s = Spec.SCP data
  /\ RegressionCalculations.slope s = Spec.slope data
  /\ RegressionCalculations.intercept s = Spec.intercept data
  /\ RegressionCalculations.meanX s = Spec.meanX data
  /\ RegressionCalculations.meanY s = Spec.meanY data.
Proof.
  intros Hs.
  assert (Hn : 2 <= length data).
  { destruct (Nat.lt_ge_cases (length data) 2) as [Hlt|Hge]; [|exact Hge].
    apply (calculateStats_null lib) in Hlt. congruence. }
  destruct (calculateStats_summary lib data Hn)
    as (s' & Hs' & Hsxx & Hscp & Hslope & Hint & HmX & HmY & _).
  assert (s' = s) by congruence. subst s'. auto 10.
Qed.

(** The table and the calculations panel draw the same line: in every row,
    the predicted value is the panel's slope times the row's x plus the
    panel's intercept, the residual is y minus that, and the deviations are
    taken from the panel's means. *)
Theorem table_rows_on_panel_line (lib : Regression.Linear num)
  (data : list (DataPoint num)) (s : RegressionCalculations.Stats num)
  (point : DataPoint num) :
  RegressionCalculations.calculateStats lib data = Some s ->
  let r := App.tableRow data point in
  App.yPredicted r
  = RegressionCalculations.slope s * point.(x) + RegressionCalculations.intercept s
  /\ App.residual r
     = point.(y) - (RegressionCalculations.slope s * point.(x)
                    + RegressionCalculations.intercept s)
  /\ App.xDiff r = point.(x) - RegressionCalculations.meanX s
  /\ App.yDiff r = point.(y) - RegressionCalculations.meanY s.
Proof.
  intros Hs. destruct (calculateStats_Some lib data Hs)
    as (_ & _ & _ & Hslope & Hint & HmX & HmY).
  rewrite Hslope, Hint, HmX, HmY.
  unfold Spec.intercept, Spec.slope, Spec.SCP, Spec.SXX, Spec.meanX, Spec.meanY.
  rewrite singlePass_reduce. cbn. repeat split.
Qed.
End Consistency.

(** The rows of the known fixture, in binary64, are on the panel's line. *)
Lemma table_rows_on_panel_line_witness :
  2 <= length Fixture.known
  /\ forall lib : Regression.Linear float,
      exists s, RegressionCalculations.calculateStats lib Fixture.known = Some s
        /\ App.yPredicted (App.tableRow Fixture.known (Fixture.point "3" "5"))
           = (RegressionCalculations.slope s * (Fixture.point "3" "5").(x)
              + RegressionCalculations.intercept s)%js.
Proof.
  split; [simpl; lia|]. intros lib. eexists. split; [reflexivity|].
  apply (table_rows_on_panel_line lib Fixture.known (Fixture.point "3" "5")).
  reflexivity.
Defined.

(** ** The conversation window of the chat *)
Section ConversationWindow.
Import Conversation.
Local Open Scope Z_scope.

(** The estimate is the least number of four-character tokens that cover the
    text. *)
Lemma estimateTokens_bounds (text : string) :
  0 <= estimateTokens text
  /\ Z.of_nat (String.length text) <= 4 * estimateTokens text
  /\ 4 * estimateTokens text < Z.of_nat (String.length text) + 4.
Proof.
  unfold estimateTokens, Math_ceil_quotient.
  pose proof (Z.div_mod (- Z.of_nat (String.length text)) 4 ltac:(lia)) as Hd.
  pose proof (Z.mod_pos_bound (- Z.of_nat (String.length text)) 4 ltac:(lia)) as Hm.
  lia.
Qed.

Lemma length_append (a b : string) :
  String.length (a ++ b) = (String.length a + String.length b)%nat.
Proof. induction a as [|c a IH]; simpl; [reflexivity | rewrite IH; reflexivity]. Qed.

(** Every message line costs at least two tokens. *)
Lemma messageText_tokens (message : Message) :
  2 <= estimateTokens (messageText message).
Proof.
  destruct (estimateTokens_bounds (messageText message)) as (_ & Hle & _).
  assert (7 <= String.length (messageText message))%nat.
  { unfold messageText. destruct (isUser message); rewrite length_append; simpl; lia. }
  lia.
Qed.

Lemma tokensOf_app (a b : list Message) : tokensOf (a ++ b) = tokensOf a + tokensOf b.
Proof. induction a as [|m a IH]; simpl; [reflexivity | rewrite IH; lia]. Qed.

Lemma tokensOf_nonneg (a : list Message) : 0 <= tokensOf a.
Proof.
  induction a as [|m a IH]; simpl; [lia|].
  pose proof (messageText_tokens m). lia.
Qed.

Lemma transcript_app (a b : list Message) :
  transcript (a ++ b) = (transcript a ++ transcript b)%string.
Proof.
  induction a as [|m a IH]; simpl; [reflexivity|].
  rewrite IH, !string_append_assoc. reflexivity.
Qed.

(** The loop takes messages off the front of [recent] while they fit. *)
Lemma collect_takes (availableTokens : Z) (recent : list Message)
  (conversationHistory : string) (totalTokens : Z) :
  exists taken left,
    recent = taken ++ left
    /\ fst (collect availableTokens recent conversationHistory totalTokens)
       = (transcript (rev taken) ++ conversationHistory)%string
    /\ snd (collect availableTokens recent conversationHistory totalTokens)
       = totalTokens + tokensOf taken
    /\ (taken <> [] -> totalTokens + tokensOf taken <= availableTokens)
    /\ match left with
       | [] => True
       | message :: _ =>
           totalTokens + tokensOf taken + estimateTokens (messageText message)
           > availableTokens
       end.
Proof.
  revert conversationHistory totalTokens.
  induction recent as [|m older IH]; intros history total.
  - exists [], []. simpl. split; [|split; [|split; [|split]]];
      [reflexivity | reflexivity | lia | congruence | exact I].
  - cbn [collect].
    destruct (total + estimateTokens (messageText m) >? availableTokens) eqn:E.
    + exists [], (m :: older). cbn [app rev transcript tokensOf fst snd].
      apply Z.gtb_lt in E.
      split; [|split; [|split; [|split]]];
        [reflexivity | reflexivity | lia | congruence | lia].
    + destruct (IH (messageText m ++ blankLine ++ history)%string
                  (total + estimateTokens (messageText m)))
        as (taken & left & Hsplit & Hfst & Hsnd & Hfit & Hstop).
      assert (Hm : total + estimateTokens (messageText m) <= availableTokens).
      { rewrite Z.gtb_ltb in E. apply Z.ltb_ge in E. exact E. }
      exists (m :: taken), left. cbn [rev tokensOf].
      split; [|split; [|split; [|split]]].
      * rewrite Hsplit. reflexivity.
      * rewrite Hfst, transcript_app. cbn [transcript].
        rewrite !string_append_assoc. reflexivity.
      * rewrite Hsnd. lia.
      * intros _. destruct taken as [|t taken'].
        -- cbn [tokensOf]. lia.
        -- assert (Hne : t :: taken' <> []) by congruence.
           specialize (Hfit Hne). lia.
      * destruct left; [exact I|]. lia.
Qed.

Lemma tokensOf_rev (l : list Message) : tokensOf (rev l) = tokensOf l.
Proof.
  induction l as [|m l IH]; simpl; [reflexivity|].
  rewrite tokensOf_app, IH. simpl. lia.
Qed.

Lemma append_empty_r (s : string) : (s ++ "")%string = s.
Proof. induction s as [|c s IH]; simpl; [reflexivity | rewrite IH; reflexivity]. Qed.

(** The history that [createConversationContext] builds, before it is
    trimmed, is the text of the most recent messages that fit, oldest first,
    each followed by a blank line.  The messages taken are the end of the
    list after the greeting; their estimated tokens add up to at most the
    available tokens; and the message just before them, if there is one,
    would not have fitted. *)
Theorem conversation_window (availableTokens : Z) (messages : list Message) :
  exists earlier included,
    tl messages = earlier ++ included
    /\ collect availableTokens (rev (tl messages)) "" 0
       = (transcript included, tokensOf included)
    /\ (included <> [] -> tokensOf included <= availableTokens)
    /\ (forall older message,
          earlier = older ++ [message] ->
          tokensOf included + estimateTokens (messageText message)
          > availableTokens).
Proof.
  destruct (collect_takes availableTokens (rev (tl messages)) "" 0)
    as (taken & left & Hsplit & Hfst & Hsnd & Hfit & Hstop).
  exists (rev left), (rev taken). split; [|split; [|split]].
  - rewrite <- rev_app_distr, <- Hsplit, rev_involutive. reflexivity.
  - rewrite (surjective_pairing (collect _ _ _ _)), Hfst, Hsnd.
    rewrite append_empty_r, tokensOf_rev. reflexivity.
  - intros Hne. rewrite tokensOf_rev.
    assert (Ht : taken <> []) by (intros ->; apply Hne; reflexivity).
    specialize (Hfit Ht). lia.
  - intros older message Hearlier. rewrite tokensOf_rev.
    destruct left as [|l0 left'].
    + destruct older; discriminate Hearlier.
    + simpl in Hearlier. apply app_inj_tail in Hearlier.
      destruct Hearlier as (_ & ->). lia.
Qed.

(** When all messages after the greeting fit into the available tokens, the
    history is all of them. *)
Theorem whole_conversation_when_it_fits (availableTokens : Z)
  (messages : list Message) :
  tokensOf (tl messages) <= availableTokens ->
  collect availableTokens (rev (tl messages)) "" 0
  = (transcript (tl messages), tokensOf (tl messages)).
Proof.
  intros Hfit.
  destruct (conversation_window availableTokens messages)
    as (earlier & included & Hsplit & Hcollect & _ & Hstop).
  destruct earlier as [|e earlier'].
  - simpl in Hsplit. rewrite Hsplit. rewrite Hsplit in Hcollect. exact Hcollect.
  - exfalso.
    destruct (@exists_last _ (e :: earlier')) as (older & message & E);
      [discriminate|].
    specialize (Hstop older message E).
    rewrite Hsplit, E, !tokensOf_app in Hfit. simpl in Hfit.
    pose proof (tokensOf_nonneg older). lia.
Qed.

(** The greeting, a question and its answer: both fit into 3650 tokens. *)
Lemma whole_conversation_when_it_fits_witness :
  tokensOf (tl Chat.messages) <= 3650
  /\ collect 3650 (rev (tl Chat.messages)) "" 0
     = (transcript (tl Chat.messages), tokensOf (tl Chat.messages)).
Proof.
  assert (Hfit : tokensOf (tl Chat.messages) <= 3650) by (vm_compute; discriminate).
  split; [exact Hfit|].
  apply (@whole_conversation_when_it_fits 3650 Chat.messages Hfit).
Defined.

(** With nothing after the greeting, or with a question so long that fewer
    than two tokens are left, the conversation context is the empty
    string. *)
Theorem no_history_without_room (messages : list Message) (currentQuestion : string) :
  (length messages <= 1)%nat \/ 3648 < estimateTokens currentQuestion ->
  createConversationContext messages currentQuestion = ""%string.
Proof.
  intros Hcase. unfold createConversationContext.
  set (availableTokens := 4000 - 200 - 150 - estimateTokens currentQuestion).
  assert (E : collect availableTokens (rev (tl messages)) "" 0 = (""%string, 0)).
  { destruct Hcase as [Hshort|Hlong].
    - destruct messages as [|g [|m rest]]; simpl in Hshort; try lia; reflexivity.
    - destruct (rev (tl messages)) as [|m older]; [reflexivity|].
      cbn [collect]. pose proof (messageText_tokens m) as Hm.
      destruct (0 + estimateTokens (messageText m) >? availableTokens) eqn:G;
        [reflexivity|].
      rewrite Z.gtb_ltb in G. apply Z.ltb_ge in G. unfold availableTokens in G. lia. }
  rewrite E. reflexivity.
Qed.

Lemma no_history_without_room_witness :
  ((length [Chat.greeting] <= 1)%nat
   \/ 3648 < estimateTokens "What is the slope?")
  /\ createConversationContext [Chat.greeting] "What is the slope?" = ""%string.
Proof.
  assert (Hcase : (length [Chat.greeting] <= 1)%nat
                  \/ 3648 < estimateTokens "What is the slope?")
    by (left; simpl; lia).
  split; [exact Hcase|].
  apply (@no_history_without_room [Chat.greeting] "What is the slope?" Hcase).
Defined.
End ConversationWindow.

(** ** The fallback answers of the chat *)
Section FallbackAnswers.
Import Text.
Local Open Scope string_scope.

Lemma stripPrefix_append (literal rest : string) :
  stripPrefix literal (literal ++ rest) = Some rest.
Proof.
  induction literal as [|c literal IH]; simpl; [reflexivity|].
  rewrite Ascii.eqb_refl. exact IH.
Qed.

Lemma stripPrefix_Some (literal s rest : string) :
  stripPrefix literal s = Some rest -> s = literal ++ rest.
Proof.
  revert s. induction literal as [|c literal IH]; intros s; simpl.
  - intros E. injection E as ->. reflexivity.
  - destruct s as [|d s]; [discriminate|].
    destruct (Ascii.eqb c d) eqn:E; [|discriminate].
    apply Ascii.eqb_eq in E. subst d. intros Hs. rewrite (IH s Hs). reflexivity.
Qed.

Lemma includes_unfold (s word : string) :
  includes s word
  = match stripPrefix word s with
    | Some _ => true
    | None => match s with
              | String _ s' => includes s' word
              | EmptyString => false
              end
    end.
Proof. destruct s; reflexivity. Qed.

(** [includes] finds the word wherever it stands. *)
Lemma includes_intro (before word after : string) :
  includes (before ++ word ++ after) word = true.
Proof.
  induction before as [|c before IH].
  - simpl. rewrite includes_unfold, stripPrefix_append. reflexivity.
  - rewrite includes_unfold.
    destruct (stripPrefix word ((String c before) ++ word ++ after));
      [reflexivity | exact IH].
Qed.

Lemma includes_elim (s word : string) :
  includes s word = true -> exists before after, s = before ++ word ++ after.
Proof.
  induction s as [|c s IH]; rewrite includes_unfold.
  - destruct (stripPrefix word "") as [rest|] eqn:E; [|discriminate].
    intros _. exists "", rest. apply stripPrefix_Some in E. exact E.
  - destruct (stripPrefix word (String c s)) as [rest|] eqn:E.
    + intros _. exists "", rest. apply stripPrefix_Some in E. exact E.
    + intros Hs. destruct (IH Hs) as (before & after & ->).
      exists (String c before), after. reflexivity.
Qed.

(** A string that includes a word includes every part of the word. *)
Lemma includes_part (s word part : string) :
  includes s word = true -> includes word part = true -> includes s part = true.
Proof.
  intros Hs Hw.
  destruct (includes_elim s word Hs) as (b1 & a1 & ->).
  destruct (includes_elim word part Hw) as (b2 & a2 & ->).
  replace (b1 ++ (b2 ++ part ++ a2) ++ a1)
    with ((b1 ++ b2) ++ part ++ (a2 ++ a1))
    by (rewrite !string_append_assoc; reflexivity).
  apply includes_intro.
Qed.

(** The first test of [getSimpleResponse] asks whether the question
    includes the letter r.  So when the data context holds a correlation
    figure, every question that includes one of the words correlation,
    intercept, regression, r-squared (or any r at all) is answered with the
    correlation sentence, in both components: the answers about the
    intercept, about regression and about R-squared are then out of reach. *)
Theorem letter_r_gets_correlation_answer (toLowerCase : string -> string)
  (parseFloat : string -> float) (toFixed : float -> nat -> string)
  (question dataContext group word : string) (conversationHistory : option string) :
  In word ["r"; "correlation"; "intercept"; "regression"; "r-squared"; rSuperscriptTwo] ->
  includes (toLowerCase question) word = true ->
  matchCorrelation dataContext = Some group ->
  (exists rest,
     LocalModelChat.getSimpleResponse toLowerCase parseFloat toFixed
       question dataContext
     = "Your correlation coefficient is " ++ toFixed (parseFloat group) 3
         ++ ", which indicates a " ++ rest)
  /\ (exists rest,
        WorkerModelChat.getSimpleResponse toLowerCase parseFloat toFixed
          question dataContext conversationHistory
        = "Your correlation coefficient is " ++ toFixed (parseFloat group) 3
            ++ ", which indicates a " ++ rest).
Proof.
  intros Hword Hq Hmatch.
  assert (Hr : includes (toLowerCase question) "r" = true).
  { apply includes_part with (word := word); [exact Hq|].
    simpl in Hword.
    destruct Hword as [<-|[<-|[<-|[<-|[<-|[<-|[]]]]]]]; reflexivity. }
  split.
  - unfold LocalModelChat.getSimpleResponse. rewrite Hr, orb_true_r, Hmatch.
    cbv zeta.
    destruct (PrimFloat.ltb threshold_strong (PrimFloat.abs (parseFloat group)));
      [|destruct (PrimFloat.ltb threshold_moderate
                    (PrimFloat.abs (parseFloat group)))].
    + exists ("strong " ++ (if PrimFloat.ltb 0 (parseFloat group)
                            then "positive" else "negative")
                ++ " linear relationship between your variables.").
      apply f_equal. apply f_equal. reflexivity.
    + exists ("moderate " ++ (if PrimFloat.ltb 0 (parseFloat group)
                              then "positive" else "negative")
                ++ " linear relationship.").
      apply f_equal. apply f_equal. reflexivity.
    + exists "weak linear relationship between your variables.".
      apply f_equal. apply f_equal. reflexivity.
  - unfold WorkerModelChat.getSimpleResponse. rewrite Hr, orb_true_r, Hmatch.
    cbv zeta.
    set (described :=
           (if PrimFloat.ltb threshold_strong (PrimFloat.abs (parseFloat group))
            then "strong"
            else if PrimFloat.ltb threshold_moderate
                      (PrimFloat.abs (parseFloat group))
                 then "moderate" else "weak")
             ++ " " ++ (if PrimFloat.ltb 0 (parseFloat group)
                        then "positive" else "negative")
             ++ " linear relationship between your variables.").
    destruct (WorkerModelChat.isFollowUp (toLowerCase question) conversationHistory
              && WorkerModelChat.historyIncludes conversationHistory "slope")%bool.
    + exists (described ++ " This correlation relates to the slope we discussed - stronger correlations typically have steeper slopes.").
      rewrite !string_append_assoc. reflexivity.
    + exists described. reflexivity.
Qed.

(** *** What [toFixed] prints *)










(** *** What the two regular expressions find in the data context *)













End FallbackAnswers.

(** A question about the intercept, with the known fixture entered: the
    answer is the correlation sentence. *)
Lemma letter_r_gets_correlation_answer_witness :
  In "intercept"%string
    ["r"; "correlation"; "intercept"; "regression"; "r-squared"; Text.rSuperscriptTwo]%string
  /\ Text.includes (toLowerCase "What is the Intercept?") "intercept" = true
  /\ forall big : float -> string,
      let toFixed := NumberPrototype.toFixed big in
      let dataContext := GemmaChatbot.generateDataContext toFixed Fixture.known in
      Text.matchCorrelation dataContext = Some "0.775."%string
      /\ exists rest,
          WorkerModelChat.getSimpleResponse toLowerCase PlainLiteral.parseFloat toFixed
            "What is the Intercept?" dataContext None
          = ("Your correlation coefficient is "
               ++ toFixed (PlainLiteral.parseFloat "0.775.") 3
               ++ ", which indicates a " ++ rest)%string.
Proof.
  assert (Hword : In "intercept"%string
                    ["r"; "correlation"; "intercept"; "regression"; "r-squared";
                     Text.rSuperscriptTwo]%string)
    by (simpl; auto).
  assert (Hq : Text.includes (toLowerCase "What is the Intercept?") "intercept" = true)
    by (vm_compute; reflexivity).
  split; [exact Hword|]. split; [exact Hq|]. intros big toFixed dataContext.
  assert (Hmatch : Text.matchCorrelation dataContext = Some "0.775."%string)
    by (vm_compute; reflexivity).
  split; [exact Hmatch|].
  apply (letter_r_gets_correlation_answer toLowerCase PlainLiteral.parseFloat toFixed
           "What is the Intercept?" dataContext None Hword Hq Hmatch).
Defined.


(** ** The request table of the worker hook *)
Section RequestTable.
Import WorkerProtocol UseAIModelWorker.
Context {Generated Options : Type}.
Local Abbreviation Effect := (UseAIModelWorker.Effect Generated Options).

Lemma Map_get_delete_same (key : string) (m : list (string * nat)) :
  Map_get key (Map_delete key m) = None.
Proof.
  induction m as [|[k v] m IH]; simpl; [reflexivity|].
  destruct (String.eqb k key) eqn:E; simpl; [exact IH|].
  rewrite E. exact IH.
Qed.

Lemma Map_get_delete_other (key key' : string) (m : list (string * nat)) :
  key' <> key -> Map_get key' (Map_delete key m) = Map_get key' m.
Proof.
  intros Hne. induction m as [|[k v] m IH]; simpl; [reflexivity|].
  destruct (String.eqb k key) eqn:E; simpl.
  - apply String.eqb_eq in E. subst k.
    destruct (String.eqb key key') eqn:E'; [|exact IH].
    apply String.eqb_eq in E'. congruence.
  - rewrite IH. reflexivity.
Qed.

Lemma Map_get_set_same (key : string) (v : nat) (m : list (string * nat)) :
  Map_get key (Map_set key v m) = Some v.
Proof.
  induction m as [|[k w] m IH]; simpl.
  - rewrite String.eqb_refl. reflexivity.
  - destruct (String.eqb k key) eqn:E; simpl; rewrite E; [reflexivity | exact IH].
Qed.

Lemma Map_get_set_other (key key' : string) (v : nat) (m : list (string * nat)) :
  key' <> key -> Map_get key' (Map_set key v m) = Map_get key' m.
Proof.
  intros Hne. induction m as [|[k w] m IH]; simpl.
  - destruct (String.eqb key key') eqn:E; [|reflexivity].
    apply String.eqb_eq in E. congruence.
  - destruct (String.eqb k key) eqn:E; simpl.
    + apply String.eqb_eq in E. subst k.
      destruct (String.eqb key key') eqn:E'; [|reflexivity].
      apply String.eqb_eq in E'. congruence.
    + rewrite IH. reflexivity.
Qed.

Lemma In_clearTimeout (promise p : nat) (key : string) (armed : list (nat * string)) :
  In (p, key) (clearTimeout promise armed) <-> In (p, key) armed /\ p <> promise.
Proof.
  unfold clearTimeout. rewrite filter_In. simpl.
  rewrite negb_true_iff, Nat.eqb_neq. reflexivity.
Qed.

(** An answer to a request takes the request out of the table of pending
    requests and leaves the other entries alone; progress messages and
    messages of any other type leave the table as it is. *)
Theorem answered_request_leaves_table (st : State)
  (message : WorkerMessage Generated) :
  let st' := fst (onmessage (Options := Options) st message) in
  match message.(answer) with
  | PROGRESS _ | OTHER _ => st'.(pendingRequests) = st.(pendingRequests)
  | _ =>
      Map_get message.(id) st'.(pendingRequests) = None
      /\ forall key, key <> message.(id) ->
           Map_get key st'.(pendingRequests) = Map_get key st.(pendingRequests)
  end.
Proof.
  destruct message as [key a]. unfold onmessage. simpl.
  destruct a as [success name|update|result|error|type]; simpl;
    try reflexivity;
    unfold answerRequest; simpl;
    destruct (Map_get key (pendingRequests st)) as [promise|] eqn:E; simpl;
    (split;
     [ first [apply Map_get_delete_same | exact E]
     | intros key' Hne; first [apply Map_get_delete_other; exact Hne | reflexivity] ]).
Qed.

(** A timeout that is still armed when it fires takes its request out of
    the table, rejects the promise with [Worker request timeout] and does
    nothing else; it is armed no longer. *)
Theorem timeout_leaves_table (st : State) (promise : nat) (key : string) :
  In (promise, key) st.(timeouts) ->
  let result := timeoutFires (Generated := Generated) (Options := Options)
                  st promise key in
  Map_get key (fst result).(pendingRequests) = None
  /\ snd result = [Settle promise (Rejected "Worker request timeout")]
  /\ ~ In (promise, key) (fst result).(timeouts).
Proof.
  intros Harmed. unfold timeoutFires.
  assert (E : existsb (fun t => Nat.eqb (fst t) promise && String.eqb (snd t) key)
                (timeouts st) = true).
  { apply existsb_exists. exists (promise, key). split; [exact Harmed|].
    simpl. rewrite Nat.eqb_refl, String.eqb_refl. reflexivity. }
  rewrite E. simpl. split; [apply Map_get_delete_same|]. split; [reflexivity|].
  rewrite In_clearTimeout. intros (_ & Hne). apply Hne. reflexivity.
Qed.

Lemma settlements_app (promise : nat) (a b : list Effect) :
  settlements promise (a ++ b) = settlements promise a + settlements promise b.
Proof.
  induction a as [|e a IH]; simpl; [reflexivity|].
  destruct e; simpl; rewrite IH; lia.
Qed.

(** The bookkeeping looks at three fields of the state only. *)
Lemma consistent_same (st st' : State) (effects : list Effect) :
  st'.(pendingRequests) = st.(pendingRequests) ->
  st'.(timeouts) = st.(timeouts) ->
  st'.(nextPromise) = st.(nextPromise) ->
  consistent st effects -> consistent st' effects.
Proof.
  unfold consistent. intros -> -> ->. exact (fun H => H).
Qed.

Lemma consistent_no_effect (st : State) (effects : list Effect) :
  consistent st effects -> consistent st (effects ++ []).
Proof. rewrite app_nil_r. exact (fun H => H). Qed.

(** Settling a promise whose timeout is armed, and disarming it. *)
Lemma consistent_settle (st st' : State) (effects : list Effect)
  (promise : nat) (key : string) (outcome : Outcome Generated) :
  consistent st effects ->
  In (promise, key) st.(timeouts) ->
  st'.(pendingRequests) = Map_delete key st.(pendingRequests) ->
  st'.(timeouts) = clearTimeout promise st.(timeouts) ->
  st'.(nextPromise) = st.(nextPromise) ->
  consistent st' (effects ++ [Settle promise outcome]).
Proof.
  intros (Ha & Hb & Hc & Hd & He) Harmed Ep Et En.
  unfold consistent. rewrite Ep, Et, En.
  assert (Hcount : forall p,
            settlements p (effects ++ [Settle promise outcome])
            = settlements p effects + (if Nat.eqb promise p then 1 else 0)).
  { intros p. rewrite settlements_app. simpl. lia. }
  split; [|split; [|split; [|split]]].
  - intros key' p Hget.
    destruct (String.eqb key' key) eqn:E.
    + apply String.eqb_eq in E. subst key'.
      rewrite Map_get_delete_same in Hget. discriminate.
    + apply String.eqb_neq in E. rewrite Map_get_delete_other in Hget by exact E.
      apply In_clearTimeout. split; [apply Ha; exact Hget|].
      intros ->. apply E. apply (Hc promise key' key); [apply Ha; exact Hget | exact Harmed].
  - intros p key' Hin. apply In_clearTimeout in Hin. destruct Hin as (Hin & Hne).
    destruct (Hb p key' Hin) as (Hlt & Hzero). split; [exact Hlt|].
    rewrite Hcount, Hzero.
    destruct (Nat.eqb promise p) eqn:E; [apply Nat.eqb_eq in E; congruence | reflexivity].
  - intros p key1 key2 H1 H2. apply In_clearTimeout in H1, H2.
    apply (Hc p key1 key2); tauto.
  - intros p Hle. rewrite Hcount, (Hd p Hle).
    destruct (Nat.eqb promise p) eqn:E; [|reflexivity].
    apply Nat.eqb_eq in E. subst p. destruct (Hb promise key Harmed). lia.
  - intros p. rewrite Hcount.
    destruct (Nat.eqb promise p) eqn:E; [|pose proof (He p); lia].
    apply Nat.eqb_eq in E. subst p. destruct (Hb promise key Harmed) as (_ & Hz).
    rewrite Hz. lia.
Qed.

(** Rejecting a promise at its creation. *)
Lemma consistent_fresh_rejection (st st' : State) (effects : list Effect)
  (message : string) :
  consistent st effects ->
  st'.(pendingRequests) = st.(pendingRequests) ->
  st'.(timeouts) = st.(timeouts) ->
  st'.(nextPromise) = S st.(nextPromise) ->
  consistent st' (effects ++ [Settle st.(nextPromise) (Rejected message)]).
Proof.
  intros (Ha & Hb & Hc & Hd & He) Ep Et En.
  unfold consistent. rewrite Ep, Et, En.
  assert (Hcount : forall p,
            settlements p (effects ++ [Settle (nextPromise st)
                                         (Rejected (Generated := Generated) message)])
            = settlements p effects + (if Nat.eqb (nextPromise st) p then 1 else 0)).
  { intros p. rewrite settlements_app. simpl. lia. }
  split; [|split; [|split; [|split]]].
  - exact Ha.
  - intros p key Hin. destruct (Hb p key Hin) as (Hlt & Hz). split; [lia|].
    rewrite Hcount, Hz.
    destruct (Nat.eqb (nextPromise st) p) eqn:E; [|reflexivity].
    apply Nat.eqb_eq in E. lia.
  - exact Hc.
  - intros p Hle. rewrite Hcount, (Hd p) by lia.
    destruct (Nat.eqb (nextPromise st) p) eqn:E; [|reflexivity].
    apply Nat.eqb_eq in E. lia.
  - intros p. rewrite Hcount.
    destruct (Nat.eqb (nextPromise st) p) eqn:E; [|pose proof (He p); lia].
    apply Nat.eqb_eq in E. subst p. rewrite (Hd (nextPromise st)) by lia. lia.
Qed.

(** Registering a new request. *)
Lemma consistent_register (st st' : State) (effects more : list Effect) (key : string) :
  consistent st effects ->
  (forall p, settlements p more = 0) ->
  st'.(pendingRequests) = Map_set key st.(nextPromise) st.(pendingRequests) ->
  st'.(timeouts) = (st.(nextPromise), key) :: st.(timeouts) ->
  st'.(nextPromise) = S st.(nextPromise) ->
  consistent st' (effects ++ more).
Proof.
  intros (Ha & Hb & Hc & Hd & He) Hmore Ep Et En.
  unfold consistent. rewrite Ep, Et, En.
  assert (Hcount : forall p, settlements p (effects ++ more) = settlements p effects).
  { intros p. rewrite settlements_app, Hmore. lia. }
  split; [|split; [|split; [|split]]].
  - intros key' p Hget. destruct (String.eqb key' key) eqn:E.
    + apply String.eqb_eq in E. subst key'. rewrite Map_get_set_same in Hget.
      injection Hget as <-. left. reflexivity.
    + apply String.eqb_neq in E. rewrite Map_get_set_other in Hget by exact E.
      right. apply Ha. exact Hget.
  - intros p key' [Hin|Hin].
    + injection Hin as <- <-. split; [lia|]. rewrite Hcount. apply Hd. lia.
    + destruct (Hb p key' Hin) as (Hlt & Hz). split; [lia|]. rewrite Hcount. exact Hz.
  - intros p key1 key2 [H1|H1] [H2|H2].
    + congruence.
    + injection H1 as <- <-. destruct (Hb _ _ H2). lia.
    + injection H2 as <- <-. destruct (Hb _ _ H1). lia.
    + apply (Hc p key1 key2 H1 H2).
  - intros p Hle. rewrite Hcount. apply Hd. lia.
  - intros p. rewrite Hcount. apply He.
Qed.

(** Emptying the table. *)
Lemma consistent_clear (st st' : State) (effects : list Effect) :
  consistent st effects ->
  st'.(pendingRequests) = [] ->
  st'.(timeouts) = st.(timeouts) ->
  st'.(nextPromise) = st.(nextPromise) ->
  consistent st' effects.
Proof.
  intros (Ha & Hb & Hc & Hd & He) Ep Et En.
  unfold consistent. rewrite Ep, Et, En.
  split; [|split; [|split; [|split]]]; try assumption.
  intros key p Hget. discriminate Hget.
Qed.

Lemma answerRequest_consistent (st : State) (key : string)
  (outcome : Outcome Generated) (effects : list Effect) :
  consistent st effects ->
  consistent (fst (answerRequest (Options := Options) st key outcome))
    (effects ++ snd (answerRequest (Options := Options) st key outcome)).
Proof.
  intros Hst. unfold answerRequest.
  destruct (Map_get key (pendingRequests st)) as [promise|] eqn:E; simpl.
  - apply consistent_settle with (st := st) (key := key); try reflexivity; [exact Hst|].
    destruct Hst as (Ha & _). apply Ha. exact E.
  - apply consistent_no_effect. exact Hst.
Qed.

Lemma sendWorkerMessage_consistent (st : State) (request : Request Options)
  (key : string) (reaction : bool) (effects : list Effect) :
  consistent st effects ->
  consistent (fst (sendWorkerMessage (Generated := Generated) st request key reaction))
    (effects ++ snd (sendWorkerMessage (Generated := Generated) st request key reaction)).
Proof.
  intros Hst. unfold sendWorkerMessage.
  destruct (workerRef st) as [worker|]; simpl.
  - apply consistent_register with (st := st) (key := key); try reflexivity. exact Hst.
  - apply consistent_fresh_rejection with (st := st); try reflexivity. exact Hst.
Qed.

(** Effects that settle nothing, on a state with the same three fields. *)
Lemma consistent_quiet (st st' : State) (effects more : list Effect) :
  consistent st effects ->
  (forall p, settlements p more = 0) ->
  st'.(pendingRequests) = st.(pendingRequests) ->
  st'.(timeouts) = st.(timeouts) ->
  st'.(nextPromise) = st.(nextPromise) ->
  consistent st' (effects ++ more).
Proof.
  intros (Ha & Hb & Hc & Hd & He) Hmore Ep Et En.
  unfold consistent. rewrite Ep, Et, En.
  assert (Hcount : forall p, settlements p (effects ++ more) = settlements p effects).
  { intros p. rewrite settlements_app, Hmore. lia. }
  split; [|split; [|split; [|split]]]; try assumption.
  - intros p key Hin. rewrite Hcount. apply (Hb p key Hin).
  - intros p Hle. rewrite Hcount. apply Hd, Hle.
  - intros p. rewrite Hcount. apply He.
Qed.

Lemma initializeWorker_fields (st : State) :
  let result := initializeWorker (Generated := Generated) (Options := Options) st in
  (fst (fst result)).(pendingRequests) = st.(pendingRequests)
  /\ (fst (fst result)).(timeouts) = st.(timeouts)
  /\ (fst (fst result)).(nextPromise) = st.(nextPromise)
  /\ (forall p, settlements p (snd result) = 0).
Proof.
  unfold initializeWorker. destruct (workerInstance st); simpl; auto.
Qed.

Lemma retryLoading_consistent (st : State) (key : string) (effects : list Effect) :
  consistent st effects ->
  consistent (fst (retryLoading (Generated := Generated) (Options := Options) st key))
    (effects ++ snd (retryLoading (Generated := Generated) (Options := Options) st key)).
Proof.
  intros Hst. unfold retryLoading.
  set (terminated := match workerRef st with
                     | Some worker => [Terminate worker]
                     | None => []
                     end : list Effect).
  set (reset := {| modelStatus := loading; loadedModelName := "";
                   progressUpdate := None; workerRef := None;
                   workerInstance := _; pendingRequests := [];
                   isInitialized := false; timeouts := timeouts st;
                   mountTimer := mountTimer st; progressTimers := progressTimers st;
                   failsModel := failsModel st;
                   nextPromise := nextPromise st; nextWorker := nextWorker st |}).
  assert (Hterminated : forall p, settlements p terminated = 0).
  { intros p. unfold terminated. destruct (workerRef st); reflexivity. }
  assert (Hreset : consistent reset effects).
  { apply consistent_clear with (st := st); try reflexivity. exact Hst. }
  destruct (initializeWorker_fields reset) as (Ep & Et & En & Hcreated).
  destruct (initializeWorker reset) as ((st1, worker), created). simpl in *.
  assert (H1 : consistent st1 (effects ++ terminated ++ created)).
  { apply consistent_quiet with (st := reset); try assumption.
    intros p. rewrite settlements_app, Hterminated, Hcreated. reflexivity. }
  destruct worker as [w|].
  - pose proof (sendWorkerMessage_consistent INITIALIZE_MODEL key false H1) as H2.
    destruct (sendWorkerMessage st1 INITIALIZE_MODEL key false) as (st2, sent).
    simpl in *. rewrite <- !app_assoc in H2. exact H2.
  - exact H1.
Qed.

(** Every step of the hook keeps the bookkeeping. *)
Lemma step_consistent (st : State) (e : Event Generated Options)
  (effects : list Effect) :
  consistent st effects ->
  consistent (fst (step st e)) (effects ++ snd (step st e)).
Proof.
  intros Hst. destruct e as [|key|message| |promise key| |prompt options key|key]; simpl.
  - (* Mount *)
    unfold mount. destruct (isInitialized st); [apply consistent_no_effect, Hst|].
    set (marked := {| modelStatus := modelStatus st;
                      loadedModelName := loadedModelName st;
                      progressUpdate := progressUpdate st;
                      workerRef := workerRef st; workerInstance := workerInstance st;
                      pendingRequests := pendingRequests st;
                      isInitialized := true; timeouts := timeouts st;
                      mountTimer := mountTimer st;
                      progressTimers := progressTimers st;
                      failsModel := failsModel st;
                      nextPromise := nextPromise st; nextWorker := nextWorker st |}).
    destruct (initializeWorker_fields marked) as (Ep & Et & En & Hcreated).
    destruct (initializeWorker marked) as ((st1, worker), created). simpl in *.
    destruct worker; simpl;
      apply consistent_quiet with (st := st); assumption.
  - (* the first INITIALIZE_MODEL *)
    unfold mountTimerFires. destruct (mountTimer st); [|apply consistent_no_effect, Hst].
    apply sendWorkerMessage_consistent.
    eapply consistent_same; [| | |exact Hst]; reflexivity.
  - (* a message of the worker *)
    unfold onmessage. destruct (answer message); simpl.
    + apply answerRequest_consistent.
      eapply consistent_same; [| | |exact Hst]; reflexivity.
    + apply consistent_no_effect.
      eapply consistent_same; [| | |exact Hst]; reflexivity.
    + apply answerRequest_consistent. exact Hst.
    + apply answerRequest_consistent.
      eapply consistent_same; [| | |exact Hst]; reflexivity.
    + apply consistent_no_effect. exact Hst.
  - (* an error event of the worker *)
    apply consistent_no_effect.
    eapply consistent_same; [| | |exact Hst]; reflexivity.
  - (* a timeout *)
    unfold timeoutFires.
    destruct (existsb _ (timeouts st)) eqn:E; simpl;
      [|apply consistent_no_effect, Hst].
    apply existsb_exists in E. destruct E as ((p, k) & Hin & Heq). simpl in Heq.
    apply andb_prop in Heq. destruct Heq as (Hp & Hk).
    apply Nat.eqb_eq in Hp. apply String.eqb_eq in Hk. subst p k.
    apply consistent_settle with (st := st) (key := key); try reflexivity; assumption.
  - (* a progress timer *)
    unfold progressTimerFires. destruct (progressTimers st); simpl;
      apply consistent_no_effect; [exact Hst|].
    eapply consistent_same; [| | |exact Hst]; reflexivity.
  - (* generateText *)
    unfold generateText. destruct (modelStatus st);
      try (simpl; apply consistent_fresh_rejection with (st := st); try reflexivity;
           exact Hst).
    apply sendWorkerMessage_consistent. exact Hst.
  - (* retryLoading *)
    apply retryLoading_consistent. exact Hst.
Qed.

Lemma runFrom_consistent (events : list (Event Generated Options)) (st : State)
  (effects : list Effect) :
  consistent st effects ->
  consistent (fst (runFrom st events)) (effects ++ snd (runFrom st events)).
Proof.
  revert st effects. induction events as [|e later IH]; intros st effects Hst.
  - simpl. apply consistent_no_effect, Hst.
  - simpl. pose proof (step_consistent e Hst) as H1.
    destruct (step st e) as (st1, effects1). simpl in H1.
    pose proof (IH st1 _ H1) as H2.
    destruct (runFrom st1 later) as (st2, effects2). simpl in *.
    rewrite <- app_assoc in H2. exact H2.
Qed.

(** Whatever happens to the hook - messages of the worker in any order and
    with any ids, timeouts, retries, calls of [generateText] - no promise it
    hands out is settled twice, and every request still in the table has its
    timeout armed. *)
Theorem no_promise_settled_twice (events : list (Event Generated Options)) :
  let result := run events in
  (forall promise, settlements promise (snd result) <= 1)
  /\ (forall key promise,
        Map_get key (fst result).(pendingRequests) = Some promise ->
        In (promise, key) (fst result).(timeouts)).
Proof.
  assert (Hinit : consistent initialState ([] : list Effect)).
  { unfold consistent, initialState. simpl.
    repeat split; try (intros; lia); try contradiction; discriminate. }
  pose proof (runFrom_consistent events Hinit) as (Ha & _ & _ & _ & He).
  simpl in *. split; [exact He | exact Ha].
Qed.
Lemma Map_get_set_inv (key key' : string) (v p : nat) (m : list (string * nat)) :
  Map_get key' (Map_set key v m) = Some p -> p = v \/ Map_get key' m = Some p.
Proof.
  destruct (String.eqb key' key) eqn:E.
  - apply String.eqb_eq in E. subst key'. rewrite Map_get_set_same.
    intros [= <-]. left. reflexivity.
  - apply String.eqb_neq in E. rewrite Map_get_set_other by exact E. auto.
Qed.

Lemma Map_get_delete_inv (key key' : string) (p : nat) (m : list (string * nat)) :
  Map_get key' (Map_delete key m) = Some p -> Map_get key' m = Some p.
Proof.
  destruct (String.eqb key' key) eqn:E.
  - apply String.eqb_eq in E. subst key'. rewrite Map_get_delete_same. discriminate.
  - apply String.eqb_neq in E. rewrite Map_get_delete_other by exact E. auto.
Qed.

Lemma onlyTimeoutsBefore_nil (bound : nat) :
  onlyTimeoutsBefore bound ([] : list Effect).
Proof. intros p outcome []. Qed.

Lemma onlyTimeoutsBefore_app (bound : nat) (a b : list Effect) :
  onlyTimeoutsBefore bound a -> onlyTimeoutsBefore bound b ->
  onlyTimeoutsBefore bound (a ++ b).
Proof.
  intros Ha Hb p outcome Hin Hlt. apply in_app_or in Hin.
  destruct Hin as [Hin|Hin]; [apply (Ha p outcome Hin Hlt) | apply (Hb p outcome Hin Hlt)].
Qed.

Lemma In_settlements (p : nat) (outcome : Outcome Generated) (effects : list Effect) :
  In (Settle p outcome) effects -> 1 <= settlements p effects.
Proof.
  induction effects as [|e effects IH]; intros Hin; [destruct Hin|].
  destruct Hin as [->|Hin].
  - simpl. rewrite Nat.eqb_refl. lia.
  - specialize (IH Hin). destruct e; simpl; lia.
Qed.

(** Effects that settle no promise. *)
Lemma onlyTimeoutsBefore_quiet (bound : nat) (effects : list Effect) :
  (forall p, settlements p effects = 0) -> onlyTimeoutsBefore bound effects.
Proof.
  intros Hquiet p outcome Hin _. apply In_settlements in Hin.
  rewrite Hquiet in Hin. lia.
Qed.

(** Like the bookkeeping, [pendingSince] looks at the table and at the
    number of the next promise only. *)
Lemma pendingSince_same (bound : nat) (st st' : State) :
  st'.(pendingRequests) = st.(pendingRequests) ->
  st.(nextPromise) <= st'.(nextPromise) ->
  pendingSince bound st -> pendingSince bound st'.
Proof.
  unfold pendingSince. intros -> Hle (Hb & Hp). split; [lia | exact Hp].
Qed.

Lemma answerRequest_pendingSince (bound : nat) (st : State) (key : string)
  (outcome : Outcome Generated) :
  pendingSince bound st ->
  pendingSince bound (fst (answerRequest (Options := Options) st key outcome))
  /\ onlyTimeoutsBefore bound (snd (answerRequest (Options := Options) st key outcome)).
Proof.
  intros (Hb & Hp). unfold answerRequest.
  destruct (Map_get key (pendingRequests st)) as [promise|] eqn:E; simpl.
  - split.
    + split; [exact Hb|]. simpl. intros key' p Hget.
      apply (Hp key'). apply Map_get_delete_inv with (key := key). exact Hget.
    + intros p o [[= <- <-]|[]] Hlt. pose proof (Hp key promise E). lia.
  - split; [split; assumption | apply onlyTimeoutsBefore_nil].
Qed.

Lemma sendWorkerMessage_pendingSince (bound : nat) (st : State)
  (request : Request Options) (key : string) (reaction : bool) :
  pendingSince bound st ->
  pendingSince bound
    (fst (sendWorkerMessage (Generated := Generated) st request key reaction))
  /\ onlyTimeoutsBefore bound
       (snd (sendWorkerMessage (Generated := Generated) st request key reaction)).
Proof.
  intros (Hb & Hp). unfold sendWorkerMessage.
  destruct (workerRef st) as [worker|]; simpl.
  - split.
    + split; simpl; [lia|]. intros key' p Hget.
      apply Map_get_set_inv in Hget. destruct Hget as [->|Hget]; [exact Hb|].
      apply (Hp key' p Hget).
    + intros p o [[=]|[]].
  - split.
    + split; simpl; [lia | exact Hp].
    + intros p o [[= <- <-]|[]] Hlt. lia.
Qed.

Lemma retryLoading_pendingSince (st : State) (key : string) :
  pendingSince st.(nextPromise)
    (fst (retryLoading (Generated := Generated) (Options := Options) st key))
  /\ (forall p, settlements p
        (snd (retryLoading (Generated := Generated) (Options := Options) st key)) = 0).
Proof.
  unfold retryLoading.
  set (terminated := match workerRef st with
                     | Some worker => [Terminate worker]
                     | None => []
                     end : list Effect).
  set (reset := {| modelStatus := loading; loadedModelName := "";
                   progressUpdate := None; workerRef := None;
                   workerInstance := _; pendingRequests := [];
                   isInitialized := false; timeouts := timeouts st;
                   mountTimer := mountTimer st; progressTimers := progressTimers st;
                   failsModel := failsModel st;
                   nextPromise := nextPromise st; nextWorker := nextWorker st |}).
  assert (Hterminated : forall p, settlements p terminated = 0).
  { intros p. unfold terminated. destruct (workerRef st); reflexivity. }
  assert (Hreset : pendingSince (nextPromise st) reset).
  { split; simpl; [lia|]. intros k p [=]. }
  destruct (initializeWorker_fields reset) as (Ep & Et & En & Hcreated).
  assert (Href : snd (fst (initializeWorker (Generated := Generated)
                             (Options := Options) reset)) <> None
                 -> workerRef (fst (fst (initializeWorker (Generated := Generated)
                                           (Options := Options) reset))) <> None).
  { unfold initializeWorker. destruct (workerInstance reset); simpl; congruence. }
  destruct (initializeWorker reset) as ((st1, worker), created). simpl in *.
  assert (H1 : pendingSince (nextPromise st) st1).
  { apply (pendingSince_same (st := reset)); [exact Ep | rewrite En; simpl; lia | exact Hreset]. }
  destruct worker as [w|].
  - unfold sendWorkerMessage.
    destruct (workerRef st1) as [worker|] eqn:Eref;
      [|exfalso; apply Href; [discriminate | reflexivity]].
    simpl. split.
    + destruct H1 as (Hb & Hp). split; simpl; [lia|]. intros key' p Hget.
      apply Map_get_set_inv in Hget. destruct Hget as [->|Hget]; [exact Hb|].
      apply (Hp key' p Hget).
    + intros p. rewrite !settlements_app, Hterminated, Hcreated. reflexivity.
  - split; [exact H1|].
    intros p. simpl. rewrite settlements_app, Hterminated, Hcreated. reflexivity.
Qed.

(** No step settles a promise that is older than everything in the table,
    except the timeout of that promise. *)
Lemma step_pendingSince (bound : nat) (st : State) (e : Event Generated Options) :
  pendingSince bound st ->
  pendingSince bound (fst (step st e)) /\ onlyTimeoutsBefore bound (snd (step st e)).
Proof.
  intros Hst. destruct e as [|key|message| |promise key| |prompt options key|key]; simpl.
  - (* Mount *)
    unfold mount.
    destruct (isInitialized st); [split; [exact Hst | apply onlyTimeoutsBefore_nil]|].
    set (marked := {| modelStatus := modelStatus st;
                      loadedModelName := loadedModelName st;
                      progressUpdate := progressUpdate st;
                      workerRef := workerRef st; workerInstance := workerInstance st;
                      pendingRequests := pendingRequests st;
                      isInitialized := true; timeouts := timeouts st;
                      mountTimer := mountTimer st;
                      progressTimers := progressTimers st;
                      failsModel := failsModel st;
                      nextPromise := nextPromise st; nextWorker := nextWorker st |}).
    destruct (initializeWorker_fields marked) as (Ep & Et & En & Hcreated).
    destruct (initializeWorker marked) as ((st1, worker), created). simpl in *.
    destruct worker; simpl;
      (split; [apply (pendingSince_same (st := st)); simpl; [exact Ep | lia | exact Hst]
              | apply onlyTimeoutsBefore_quiet, Hcreated]).
  - (* the first INITIALIZE_MODEL *)
    unfold mountTimerFires.
    destruct (mountTimer st); [|split; [exact Hst | apply onlyTimeoutsBefore_nil]].
    apply sendWorkerMessage_pendingSince.
    apply (pendingSince_same (st := st)); simpl; [reflexivity | lia | exact Hst].
  - (* a message of the worker *)
    unfold onmessage. destruct (answer message); simpl.
    + apply answerRequest_pendingSince.
      apply (pendingSince_same (st := st)); simpl; [reflexivity | lia | exact Hst].
    + split; [|apply onlyTimeoutsBefore_nil].
      apply (pendingSince_same (st := st)); simpl; [reflexivity | lia | exact Hst].
    + apply answerRequest_pendingSince. exact Hst.
    + apply answerRequest_pendingSince.
      apply (pendingSince_same (st := st)); simpl; [reflexivity | lia | exact Hst].
    + split; [exact Hst | apply onlyTimeoutsBefore_nil].
  - (* an error event of the worker *)
    split; [|apply onlyTimeoutsBefore_nil].
    apply (pendingSince_same (st := st)); simpl; [reflexivity | lia | exact Hst].
  - (* a timeout *)
    unfold timeoutFires.
    destruct (existsb _ (timeouts st)); simpl;
      [|split; [exact Hst | apply onlyTimeoutsBefore_nil]].
    split.
    + destruct Hst as (Hb & Hp). split; simpl; [exact Hb|]. intros key' p Hget.
      apply (Hp key'). apply Map_get_delete_inv with (key := key). exact Hget.
    + intros p o [[= <- <-]|[]] _. reflexivity.
  - (* a progress timer *)
    unfold progressTimerFires. destruct (progressTimers st); simpl;
      (split; [|apply onlyTimeoutsBefore_nil]); [exact Hst|].
    apply (pendingSince_same (st := st)); simpl; [reflexivity | lia | exact Hst].
  - (* generateText *)
    unfold generateText. destruct (modelStatus st);
      try (simpl; split;
           [ apply (pendingSince_same (st := st)); simpl; [reflexivity | lia | exact Hst]
           | intros p o [[= <- <-]|[]] Hlt; destruct Hst; lia ]).
    apply sendWorkerMessage_pendingSince. exact Hst.
  - (* retryLoading *)
    destruct (retryLoading_pendingSince st key) as ((Hb' & Hp') & Hquiet).
    split; [|apply onlyTimeoutsBefore_quiet, Hquiet].
    destruct Hst as (Hb & Hp). split; [lia|].
    intros key' p Hget. pose proof (Hp' key' p Hget). lia.
Qed.

Lemma runFrom_pendingSince (bound : nat) (events : list (Event Generated Options))
  (st : State) :
  pendingSince bound st ->
  pendingSince bound (fst (runFrom st events))
  /\ onlyTimeoutsBefore bound (snd (runFrom st events)).
Proof.
  revert st. induction events as [|e later IH]; intros st Hst.
  - simpl. split; [exact Hst | apply onlyTimeoutsBefore_nil].
  - simpl. destruct (step_pendingSince e Hst) as (H1 & Hfirst).
    destruct (step st e) as (st1, effects1). simpl in H1, Hfirst.
    destruct (IH st1 H1) as (H2 & Hrest).
    destruct (runFrom st1 later) as (st2, effects2). simpl in *.
    split; [exact H2 | apply onlyTimeoutsBefore_app; assumption].
Qed.

Lemma retryLoading_keeps_timeouts (st : State) (key : string) (p : nat) (k : string) :
  In (p, k) st.(timeouts) ->
  In (p, k)
    (fst (retryLoading (Generated := Generated) (Options := Options) st key)).(timeouts).
Proof.
  intros Harmed. unfold retryLoading.
  set (reset := {| modelStatus := loading; loadedModelName := "";
                   progressUpdate := None; workerRef := None;
                   workerInstance := _; pendingRequests := [];
                   isInitialized := false; timeouts := timeouts st;
                   mountTimer := mountTimer st; progressTimers := progressTimers st;
                   failsModel := failsModel st;
                   nextPromise := nextPromise st; nextWorker := nextWorker st |}).
  destruct (initializeWorker_fields reset) as (_ & Et & _ & _).
  destruct (initializeWorker reset) as ((st1, worker), created). simpl in Et.
  destruct worker as [w|]; [|simpl; rewrite Et; exact Harmed].
  unfold sendWorkerMessage.
  destruct (workerRef st1); simpl; [right|]; rewrite Et; exact Harmed.
Qed.

(** [retryLoading] empties the table without settling the promises of the
    requests in it, and nothing that happens afterwards resolves them: a
    promise created before the retry is not settled by the retry, and
    whatever arrives from the worker later, with any id, it is settled only
    by its own timeout, with the rejection [Worker request timeout].  The
    retry disarms no timeout. *)
Theorem retry_leaves_old_requests_to_their_timeouts (st : State) (key : string)
  (events : list (Event Generated Options)) (promise : nat)
  (outcome : Outcome Generated) :
  promise < st.(nextPromise) ->
  let retried := retryLoading (Options := Options) st key in
  ~ In (Settle promise outcome) (snd retried)
  /\ (forall key', Map_get key' (fst retried).(pendingRequests) <> Some promise)
  /\ (In (Settle promise outcome) (snd (runFrom (fst retried) events)) ->
      outcome = Rejected "Worker request timeout")
  /\ (forall p k, In (p, k) st.(timeouts) -> In (p, k) (fst retried).(timeouts)).
Proof.
  intros Hold retried.
  destruct (retryLoading_pendingSince st key) as (Hsince & Hquiet).
  fold retried in Hsince, Hquiet.
  split; [|split; [|split]]; [| | |intros p k; apply retryLoading_keeps_timeouts].
  - intros Hin. apply In_settlements in Hin. rewrite Hquiet in Hin. lia.
  - intros key' Hget. destruct Hsince as (_ & Hp). pose proof (Hp key' promise Hget). lia.
  - intros Hin.
    destruct (runFrom_pendingSince events Hsince) as (_ & Honly).
    apply (Honly promise outcome Hin Hold).
Qed.
End RequestTable.

(** The timeout of the first INITIALIZE_MODEL request. *)
Lemma timeout_leaves_table_witness :
  In (0, "k1"%string) (UseAIModelWorker.timeouts HookScenario.firstRequest)
  /\ UseAIModelWorker.Map_get "k1"
       (UseAIModelWorker.pendingRequests
          (fst (UseAIModelWorker.timeoutFires (Generated := string) (Options := unit)
                  HookScenario.firstRequest 0 "k1"))) = None.
Proof.
  assert (Harmed : In (0, "k1"%string)
                     (UseAIModelWorker.timeouts HookScenario.firstRequest))
    by (simpl; auto).
  split; [exact Harmed|].
  exact (proj1 (@timeout_leaves_table string unit HookScenario.firstRequest 0 "k1"
                  Harmed)).
Defined.

(** A retry while a GENERATE_TEXT request is pending: the answer to the
    request, arriving after the retry, does not resolve its promise. *)
Lemma retry_leaves_old_requests_to_their_timeouts_witness :
  1 < UseAIModelWorker.nextPromise HookScenario.generating
  /\ UseAIModelWorker.Map_get "k2"
       (UseAIModelWorker.pendingRequests HookScenario.generating) = Some 1
  /\ ~ In (UseAIModelWorker.Settle 1
             (UseAIModelWorker.ResolvedResult "The slope is 0.600."%string))
          (snd (UseAIModelWorker.runFrom
                  (fst (UseAIModelWorker.retryLoading (Generated := string)
                          (Options := unit) HookScenario.generating "k3"))
                  HookScenario.lateAnswer)).
Proof.
  assert (Hold : 1 < UseAIModelWorker.nextPromise HookScenario.generating)
    by (simpl; lia).
  split; [exact Hold|]. split; [reflexivity|]. intros Hin.
  pose proof (proj1 (proj2 (proj2 (@retry_leaves_old_requests_to_their_timeouts
                              string unit HookScenario.generating "k3"
                              HookScenario.lateAnswer 1
                              (UseAIModelWorker.ResolvedResult
                                 "The slope is 0.600."%string) Hold))) Hin) as E.
  discriminate E.
Defined.
